(** * simpleotp: the WhatsApp OTP service of [src/index.js]

    A shallow embedding of the OTP part of the service: the phone-number
    formatter, the in-memory [otpStorage] map, the [send-otp] and
    [verify-otp] route handlers and the periodic clean-up, then the
    statistics of the status route and the connection variables with their
    event listeners and the connect route, followed by the properties of
    the specification that concern them and by further properties of the
    code.  [generateOTP] and the random suffix of an id rest on
    [Math.random()], a floating-point source: their results are inputs.

    Conventions.
    - JavaScript strings are [string]; the string operations the code uses
      ([replace], [startsWith], [length], [+], [===]) act on ASCII
      characters or on whole strings, so the byte view is faithful.
    - [Date.now()] is an integer number of milliseconds, a [Z].  Every call
      of [Date.now()] in a handler is a separate reading of the clock and is
      a separate input of the embedded handler.
    - A request body field is [option string]: [None] when the field is
      absent.  JavaScript truthiness of such a field is [asTruthy].
    - [otpStorage] is a JavaScript [Map]: keys are unique and iteration
      follows insertion order.  It is an association list in insertion
      order. *)

From Stdlib Require Import ZArith List String Ascii Bool Lia DecimalString.
From Stdlib Require DecimalZ DecimalPos.
Import ListNotations.
Open Scope string_scope.
Open Scope Z_scope.

(** ** Request fields *)

(** A present, non-empty string field, the only truthy value of a field:
    [asTruthy x = None] exactly when [!x] holds. *)
Definition asTruthy (x : option string) : option string :=
  match x with
  | Some s => if (s =? "")%string then None else Some s
  | None => None
  end.

(** ** formatPhoneNumber (index.js, lines 24-31) *)

Module Phone.

(** The class [\d]: the ten characters ['0'] to ['9']. *)
Definition isDigit (c : ascii) : bool :=
  ((48 <=? nat_of_ascii c) && (nat_of_ascii c <=? 57))%nat.

(** [s.replace(/\D/g, '')] *)
Fixpoint stripNonDigits (s : string) : string :=
  match s with
  | EmptyString => EmptyString
  | String c rest =>
      if isDigit c then String c (stripNonDigits rest)
      else stripNonDigits rest
  end.

Definition startsWith (s p : string) : bool := String.prefix p s.

Definition countryCode : string := "91".
Definition domainSuffix : string := "@c.us".

Definition formatPhoneNumber (phoneNumber : string) : string :=
  let formatted := stripNonDigits phoneNumber in
  let formatted :=
    if negb (startsWith formatted "91")
       && (Nat.eqb (String.length formatted) 10)
    then "91" ++ formatted
    else formatted in
  formatted ++ "@c.us".

(** The normalisation as the specification words it: strip, prepend the
    country code to every 10-digit remainder, append the suffix. *)
Definition normalizeAddress_spec (address : string) : string :=
  let digits := stripNonDigits address in
  let digits :=
    if Nat.eqb (String.length digits) 10 then countryCode ++ digits
    else digits in
  digits ++ domainSuffix.

Fixpoint allDigits (s : string) : bool :=
  match s with
  | EmptyString => true
  | String c rest => isDigit c && allDigits rest
  end.

End Phone.

(** ** OTP records and the [otpStorage] map (index.js, line 11) *)

(** The object literal stored by [send-otp] (lines 174-180), with the
    [verifiedAt] property that [verify-otp] adds later (line 256). *)
Record otpRecord : Set := mkOtpRecord {
  phoneNumber : string;
  otp : string;
  expiresAt : Z;
  verified : bool;
  createdAt : Z;
  verifiedAt : option Z
}.

Module JsMap.

(** Entries in insertion order. *)
Definition t : Set := list (string * otpRecord).

Definition empty : t := [].

Definition keys (m : t) : list string := map fst m.

(** The invariant of a [Map]: no key occurs twice. *)
Definition wf (m : t) : Prop := NoDup (keys m).

Fixpoint get (k : string) (m : t) : option otpRecord :=
  match m with
  | [] => None
  | (k', v) :: rest => if (k' =? k)%string then Some v else get k rest
  end.

Definition has (k : string) (m : t) : bool :=
  match get k m with Some _ => true | None => false end.

(** [set] keeps the position of a key already present and appends a new
    key at the end. *)
Fixpoint set (k : string) (v : otpRecord) (m : t) : t :=
  match m with
  | [] => [(k, v)]
  | (k', v') :: rest =>
      if (k' =? k)%string then (k, v) :: rest else (k', v') :: set k v rest
  end.

Fixpoint delete (k : string) (m : t) : t :=
  match m with
  | [] => []
  | (k', v') :: rest =>
      if (k' =? k)%string then rest else (k', v') :: delete k rest
  end.

Definition size (m : t) : nat := List.length m.

Definition entries (m : t) : list (string * otpRecord) := m.

(** Assignment to properties of the record object held under key [k]:
    the record is shared between the map and the handler's variable, so
    the assignment is seen through the map. *)
Fixpoint mutate (k : string) (f : otpRecord -> otpRecord) (m : t) : t :=
  match m with
  | [] => []
  | (k', v') :: rest =>
      if (k' =? k)%string then (k', f v') :: rest
      else (k', v') :: mutate k f rest
  end.

End JsMap.

(** ** The route handlers *)

Module Verify.

(** [const { otpId, otp, phoneNumber } = req.body] *)
Record body : Set := mkBody {
  otpId : option string;
  otpCode : option string;
  phone : option string
}.

(** The clock readings of one run of the handler, in program order:
    line 240 (expiry check), line 256 ([verifiedAt]) and line 262 (the
    response). *)
Record clock : Set := mkClock {
  atExpiryCheck : Z;
  atMark : Z;
  atResponse : Z
}.

(** The responses of the handler, named by the error kinds of the
    specification. *)
Inductive response : Set :=
| MissingCode                       (* 400 'OTP is required' *)
| NotFound                          (* 400 'OTP not found' *)
| Expired                           (* 400 'OTP has expired' *)
| AlreadyConsumed                   (* 400 'OTP already verified' *)
| CodeMismatch                      (* 400 'Invalid OTP' *)
| Verified (phoneNumber : string) (verifiedAt : Z).   (* 200 *)

(** One turn of the loop of lines 224-232.  The loop state is
    [(latestTime, otpRecord)]; [latestOtp] is assigned together with
    [otpRecord] and never read.  A found record is kept with its key, which
    stands for the reference to the stored object. *)
Definition scanStep (phoneNumber' : string)
    (acc : Z * option (string * otpRecord)) (e : string * otpRecord)
    : Z * option (string * otpRecord) :=
  let '(latestTime, _) := acc in
  let '(id, record) := e in
  if (record.(phoneNumber) =? phoneNumber')%string
     && (record.(createdAt) >? latestTime)
     && negb record.(verified)
  then (record.(createdAt), Some (id, record))
  else acc.

(** A record the scan may select for [phoneNumber']: same phone number,
    not verified. *)
Definition pending (phoneNumber' : string) (r : otpRecord) : bool :=
  (r.(phoneNumber) =? phoneNumber')%string && negb r.(verified).

(** Lines 221-232: [latestTime = 0], [otpRecord = null], then the scan. *)
Definition findLatestByPhone (phoneNumber' : string) (m : JsMap.t)
    : option (string * otpRecord) :=
  snd (fold_left (scanStep phoneNumber') (JsMap.entries m) (0, None)).

(** What the loop computes from the state [(t0, f0)]: either nothing
    pending is newer than [t0] and the state is unchanged, or the state is
    the first of the newest pending entries. *)
Definition scanResult (p : string) (es : list (string * otpRecord))
    (t0 : Z)
    (f0 : option (string * otpRecord))
    (res : Z * option (string * otpRecord)) : Prop :=
  (res = (t0, f0)
   /\ forall e, In e es -> pending p (snd e) = true ->
                (snd e).(createdAt) <= t0)
  \/ (exists pre id r post,
        es = (pre ++ (id, r) :: post)%list
        /\ res = (r.(createdAt), Some (id, r))
        /\ pending p r = true
        /\ t0 < r.(createdAt)
        /\ (forall e, In e pre -> pending p (snd e) = true ->
                      (snd e).(createdAt) < r.(createdAt))
        /\ (forall e, In e post -> pending p (snd e) = true ->
                      (snd e).(createdAt) <= r.(createdAt))).

(** Lines 214-233: resolution of the request to a stored record. *)
Definition resolve (b : body) (m : JsMap.t) : option (string * otpRecord) :=
  match asTruthy b.(otpId) with
  | Some id =>
      match JsMap.get id m with
      | Some record => Some (id, record)
      | None => None
      end
  | None =>
      match asTruthy b.(phone) with
      | Some phoneNumber' => findLatestByPhone phoneNumber' m
      | None => None
      end
  end.

(** Lines 255-256. *)
Definition markVerified (now : Z) (r : otpRecord) : otpRecord :=
  {| phoneNumber := r.(phoneNumber);
     otp := r.(otp);
     expiresAt := r.(expiresAt);
     verified := true;
     createdAt := r.(createdAt);
     verifiedAt := Some now |}.

(** [POST /api/verify-otp] (lines 206-269): the response and the map
    afterwards. *)
Definition verifyOtp (clk : clock) (b : body) (m : JsMap.t)
    : response * JsMap.t :=
  match asTruthy b.(otpCode) with
  | None => (MissingCode, m)
  | Some code =>
      match resolve b m with
      | None => (NotFound, m)
      | Some (id, record) =>
          if record.(expiresAt) <? clk.(atExpiryCheck) then (Expired, m)
          else if record.(verified) then (AlreadyConsumed, m)
          else if negb (record.(otp) =? code)%string then (CodeMismatch, m)
          else (Verified record.(phoneNumber) clk.(atResponse),
                JsMap.mutate id (markVerified clk.(atMark)) m)
      end
  end.

End Verify.

Module Send.

(** [const { phoneNumber, message } = req.body] *)
Record body : Set := mkBody {
  phone : option string;
  message : option string
}.

(** The module variables [whatsappClient] (null or not) and
    [whatsappConnected]. *)
Record connection : Set := mkConnection {
  whatsappClient : bool;
  whatsappConnected : bool
}.

(** What one run of the handler takes from its environment, in program
    order: the result of [generateOTP()] (line 157), the clock and the
    random suffix of the id (line 158), whether
    [whatsappClient.sendMessage] resolves for the address and text it is
    given (line 170), and the clock readings of lines 173 and 179. *)
Record env : Set := mkEnv {
  generatedOtp : string;
  atId : Z;
  idSuffix : string;
  sendMessage : string -> string -> bool;
  atExpiry : Z;
  atCreated : Z
}.

Inductive response : Set :=
| MissingPhone                      (* 400 'Phone number is required' *)
| NotConnected                      (* 400 'WhatsApp not connected...' *)
| DeliveryFailed                    (* 500 'Failed to send OTP via WhatsApp' *)
| Sent (otpId phoneNumber : string).  (* 200, expiresIn '5 minutes' *)

Definition newline : string := String (ascii_of_nat 10) EmptyString.

(** [s.replace(pattern, replacement)] for a string pattern and a
    replacement without [$]: the first occurrence only. *)
Fixpoint replaceFirst (pattern replacement s : string) : string :=
  if String.prefix pattern s
  then replacement
       ++ substring (String.length pattern)
            (String.length s - String.length pattern) s
  else match s with
       | EmptyString => EmptyString
       | String c rest => String c (replaceFirst pattern replacement rest)
       end.

(** Lines 164-166. *)
Definition otpMessage (message' : option string) (otp' : string) : string :=
  match asTruthy message' with
  | Some template => replaceFirst "{otp}" otp' template
  | None =>
      "Your OTP is: " ++ otp' ++ newline ++ newline
      ++ "This OTP will expire in 5 minutes." ++ newline ++ newline
      ++ "- WhatsApp OTP Service"
  end.

(** Line 158: [`otp_${Date.now()}_${...}`]. *)
Definition makeOtpId (now : Z) (suffix : string) : string :=
  "otp_" ++ NilZero.string_of_int (Z.to_int now) ++ "_" ++ suffix.

Definition fiveMinutes : Z := 5 * 60 * 1000.

(** [POST /api/send-otp] (lines 141-203): the response and the map
    afterwards.  The connection is read before the [await] and the map is
    written after it; nothing else of the state is touched. *)
Definition sendOtp (e : env) (c : connection) (b : body) (m : JsMap.t)
    : response * JsMap.t :=
  match asTruthy b.(phone) with
  | None => (MissingPhone, m)
  | Some phoneNumber' =>
      if negb c.(whatsappClient) || negb c.(whatsappConnected)
      then (NotConnected, m)
      else
        let otp' := e.(generatedOtp) in
        let otpId := makeOtpId e.(atId) e.(idSuffix) in
        let formattedNumber := Phone.formatPhoneNumber phoneNumber' in
        let text := otpMessage b.(message) otp' in
        if e.(sendMessage) formattedNumber text then
          let expiryTime := e.(atExpiry) + 5 * 60 * 1000 in
          (Sent otpId phoneNumber',
           JsMap.set otpId
             {| phoneNumber := phoneNumber';
                otp := otp';
                expiresAt := expiryTime;
                verified := false;
                createdAt := e.(atCreated);
                verifiedAt := None |} m)
        else (DeliveryFailed, m)
  end.

(** The callback of the [setTimeout] of lines 183-185. *)
Definition deferredDelete (otpId : string) (m : JsMap.t) : JsMap.t :=
  JsMap.delete otpId m.

(** A delivery succeeded: the handler reached [sendMessage] and it
    resolved. *)
Definition delivered (e : env) (c : connection) (b : body) : bool :=
  match asTruthy b.(phone) with
  | None => false
  | Some phoneNumber' =>
      c.(whatsappClient) && c.(whatsappConnected)
      && e.(sendMessage) (Phone.formatPhoneNumber phoneNumber')
           (otpMessage b.(message) e.(generatedOtp))
  end.

End Send.

Module Sweep.

(** One turn of the loop of lines 295-299. *)
Definition sweepStep (now : Z) (m : JsMap.t) (e : string * otpRecord)
    : JsMap.t :=
  let '(id, record) := e in
  if record.(expiresAt) <? now then JsMap.delete id m else m.

(** The [setInterval] callback of lines 293-300, run at clock reading
    [now]: every entry of the map is visited once, and the visited entry
    is deleted from the live map when it has expired. *)
Definition sweepExpired (now : Z) (m : JsMap.t) : JsMap.t :=
  fold_left (sweepStep now) (JsMap.entries m) m.

(** The entries a clean-up run at [now] is meant to keep. *)
Definition survives (now : Z) (e : string * otpRecord) : bool :=
  negb ((snd e).(expiresAt) <? now).

End Sweep.

(** ** The service as a sequence of events *)

Module Service.

(** The events that touch [otpStorage]: the two handlers, the deferred
    deletion scheduled by [send-otp] and the periodic clean-up. *)
Inductive op : Type :=
| SendOtp (e : Send.env) (c : Send.connection) (b : Send.body)
| VerifyOtp (clk : Verify.clock) (b : Verify.body)
| TimerDelete (otpId : string)
| SweepTick (now : Z).

Definition step (m : JsMap.t) (o : op) : JsMap.t :=
  match o with
  | SendOtp e c b => snd (Send.sendOtp e c b m)
  | VerifyOtp clk b => snd (Verify.verifyOtp clk b m)
  | TimerDelete otpId => Send.deferredDelete otpId m
  | SweepTick now => Sweep.sweepExpired now m
  end.

Definition run (ops : list op) (m : JsMap.t) : JsMap.t :=
  fold_left step ops m.

(** No [send-otp] of the sequence generates the id [otpId]. *)
Fixpoint avoids (otpId : string) (ops : list op) : Prop :=
  match ops with
  | [] => True
  | SendOtp e _ _ :: rest =>
      Send.makeOtpId e.(Send.atId) e.(Send.idSuffix) <> otpId
      /\ avoids otpId rest
  | _ :: rest => avoids otpId rest
  end.

(** The id [otpId] can no longer be verified: it is absent or its record
    is verified. *)
Definition spent (otpId : string) (m : JsMap.t) : Prop :=
  forall r, JsMap.get otpId m = Some r -> r.(verified) = true.






End Service.

(** ** Sample data *)

Module Sample.

Definition rec1 : otpRecord :=
  {| phoneNumber := "9876543210"; otp := "123456"; expiresAt := 301000;
     verified := false; createdAt := 1000; verifiedAt := None |}.

Definition store1 : JsMap.t := [("otp_1000_abc", rec1)].

Definition byId (id code : string) : Verify.body :=
  Verify.mkBody (Some id) (Some code) None.

Definition byPhone (phoneNumber' code : string) : Verify.body :=
  Verify.mkBody None (Some code) (Some phoneNumber').

Definition at_ (now : Z) : Verify.clock := Verify.mkClock now now now.

(** [store1] after the record has been verified at its expiry time. *)
Definition afterFirst : JsMap.t :=
  snd (Verify.verifyOtp (at_ 301000) (byId "otp_1000_abc" "123456") store1).

(** Two pending records of one phone number created in the same
    millisecond. *)
Definition recA : otpRecord :=
  {| phoneNumber := "9876543210"; otp := "111111"; expiresAt := 301000;
     verified := false; createdAt := 1000; verifiedAt := None |}.

Definition recB : otpRecord :=
  {| phoneNumber := "9876543210"; otp := "222222"; expiresAt := 301000;
     verified := false; createdAt := 1000; verifiedAt := None |}.

Definition tieStore : JsMap.t := [("otp_1000_a", recA); ("otp_1000_b", recB)].

Definition connected : Send.connection := Send.mkConnection true true.

Definition request : Send.body := Send.mkBody (Some "9876543210") None.

(** A run of [send-otp] in which the clock advances by one millisecond
    between line 173 and line 179. *)
Definition tickingEnv : Send.env :=
  {| Send.generatedOtp := "123456";
     Send.atId := 1000;
     Send.idSuffix := "abc";
     Send.sendMessage := fun _ _ => true;
     Send.atExpiry := 1000;
     Send.atCreated := 1001 |}.

(** The map after that run from the empty map: one issued record. *)
Definition issued : JsMap.t :=
  snd (Send.sendOtp tickingEnv connected request JsMap.empty).

Definition disconnected : Send.connection := Send.mkConnection false false.



End Sample.

(** ** The service statistics (index.js, lines 272-290) *)

Module Stats.

(** The filter predicate of lines 273-275 at one clock reading. *)
Definition isActive (now : Z) (r : otpRecord) : bool :=
  (r.(expiresAt) >? now) && negb r.(verified).

(** [Array.from(otpStorage.values()).filter(...).length]: the predicate
    reads the clock once for every record, [clock i] being the reading
    taken for the record at position [i]. *)
Fixpoint countActive (clock : nat -> Z) (i : nat)
    (es : list (string * otpRecord)) : nat :=
  match es with
  | [] => 0%nat
  | (_, r) :: rest =>
      ((if isActive (clock i) r then 1 else 0)
       + countActive clock (S i) rest)%nat
  end.

Definition activeOTPs (clock : nat -> Z) (m : JsMap.t) : nat :=
  countActive clock 0 (JsMap.entries m).

Definition totalOTPs (m : JsMap.t) : nat := JsMap.size m.

(** A clock that does not advance while the records are counted. *)
Definition steady (now : Z) : nat -> Z := fun _ => now.

End Stats.

(** ** The WhatsApp connection (index.js, lines 13-16 and 33-125) *)

Module Connection.

(** What the rest of the code reads off the client object:
    [info?.wid?.user] and [info?.pushname]. *)
Record client : Set := mkClient {
  number : option string;
  name : option string
}.

(** The module variables of lines 14-16. *)
Record state : Set := mkState {
  whatsappClient : option client;
  whatsappConnected : bool;
  currentQR : option string
}.

Definition initial : state :=
  {| whatsappClient := None; whatsappConnected := false; currentQR := None |}.

(** The events of the client that the code listens to. *)
Inductive event : Set :=
| Qr (qr : string)
| Ready
| AuthFailure
| Disconnected.

(** The listeners of lines 44-73, as far as the module variables go. *)
Definition handle (ev : event) (st : state) : state :=
  match ev with
  | Qr qr =>
      {| whatsappClient := st.(whatsappClient);
         whatsappConnected := st.(whatsappConnected);
         currentQR := Some qr |}
  | Ready =>
      {| whatsappClient := st.(whatsappClient);
         whatsappConnected := true;
         currentQR := None |}
  | AuthFailure | Disconnected =>
      {| whatsappClient := None;
         whatsappConnected := false;
         currentQR := None |}
  end.

(** [initializeWhatsApp] (lines 34-77), [fresh] being the object that
    [new Client(...)] returns. *)
Definition initializeWhatsApp (fresh : client) (st : state) : state :=
  {| whatsappClient := Some fresh;
     whatsappConnected := st.(whatsappConnected);
     currentQR := st.(currentQR) |}.

(** The view of the connection that [send-otp] tests (line 150). *)
Definition forSend (st : state) : Send.connection :=
  {| Send.whatsappClient :=
       match st.(whatsappClient) with Some _ => true | None => false end;
     Send.whatsappConnected := st.(whatsappConnected) |}.

(** The responses of [POST /api/whatsapp/connect]. *)
Inductive response : Set :=
| AlreadyConnected                  (* 200 'WhatsApp already connected' *)
| QrGenerated (qrCode : string)     (* 200 'QR code generated...' *)
| ConnectedNow                      (* 200 'WhatsApp connected successfully' *)
| QrTimeout.                        (* 500 'Failed to generate QR code' *)

(** One connect request in flight: whether its interval (line 96) and its
    timeout (line 114) are still set, and the responses written so far. *)
Record request : Set := mkRequest {
  polling : bool;
  timeoutSet : bool;
  sent : list response
}.

(** The synchronous part of the handler (lines 84-119). *)
Definition connect (fresh : client) (st : state) : state * request :=
  if st.(whatsappConnected)
  then (st, {| polling := false; timeoutSet := false;
               sent := [AlreadyConnected] |})
  else
    (match st.(whatsappClient) with
     | None => initializeWhatsApp fresh st
     | Some _ => st
     end,
     {| polling := true; timeoutSet := true; sent := [] |}).







(** A run of client events. *)
Definition handleAll (evs : list event) (st : state) : state :=
  fold_left (fun st' ev => handle ev st') evs st.


End Connection.

(** ** Further notions used by the properties *)

Module Notions.

(** No character of [s] is the opening brace of the placeholder. *)
Fixpoint braceFree (s : string) : bool :=
  match s with
  | EmptyString => true
  | String c rest => negb (Ascii.eqb c "{") && braceFree rest
  end.

(** No character of [s] is the underscore that separates the parts of an
    id. *)
Fixpoint underscoreFree (s : string) : bool :=
  match s with
  | EmptyString => true
  | String c rest => negb (Ascii.eqb c "_") && underscoreFree rest
  end.

(** Verified records carry their verification time. *)
Definition stamped (m : JsMap.t) : Prop :=
  forall k r, JsMap.get k m = Some r ->
              r.(verified) = true -> r.(verifiedAt) <> None.

(** A run of verification requests none of which is verified. *)
Fixpoint allRejected (attempts : list (Verify.clock * Verify.body))
    (m : JsMap.t) : Prop :=
  match attempts with
  | [] => True
  | (clk, b) :: rest =>
      (forall ph now, fst (Verify.verifyOtp clk b m) <> Verify.Verified ph now)
      /\ allRejected rest (snd (Verify.verifyOtp clk b m))
  end.

Definition attemptAll (attempts : list (Verify.clock * Verify.body))
    (m : JsMap.t) : JsMap.t :=
  fold_left (fun m' cb => snd (Verify.verifyOtp (fst cb) (snd cb) m'))
    attempts m.

End Notions.

(** * Properties *)

(** ** Address normalisation *)

Section PhoneFacts.

Import Phone.

Lemma stripNonDigits_allDigits (s : string) :
  allDigits (stripNonDigits s) = true.
Proof.
  induction s as [|c rest IH]; simpl; [reflexivity|].
  destruct (isDigit c) eqn:Hc; simpl; [rewrite Hc|]; exact IH.
Qed.

Lemma stripNonDigits_fixes_digits (s : string) :
  allDigits s = true -> stripNonDigits s = s.
Proof.
  induction s as [|c rest IH]; simpl; [reflexivity|].
  intros H. apply andb_true_iff in H as [Hc Hrest].
  rewrite Hc. f_equal. exact (IH Hrest).
Qed.

Lemma stripNonDigits_idempotent (s : string) :
  stripNonDigits (stripNonDigits s) = stripNonDigits s.
Proof. apply stripNonDigits_fixes_digits, stripNonDigits_allDigits. Qed.

Lemma stripNonDigits_app (s1 s2 : string) :
  stripNonDigits (s1 ++ s2) = stripNonDigits s1 ++ stripNonDigits s2.
Proof.
  induction s1 as [|c rest IH]; simpl; [reflexivity|].
  destruct (isDigit c); simpl; rewrite IH; reflexivity.
Qed.

(** The characters kept are exactly the digits of the input. *)
Lemma stripNonDigits_keeps (s : string) (c : ascii) :
  In c (list_ascii_of_string (stripNonDigits s))
  <-> In c (list_ascii_of_string s) /\ isDigit c = true.
Proof.
  induction s as [|a rest IH]; simpl; [tauto|].
  destruct (isDigit a) eqn:Ha; simpl; rewrite IH; split.
  - intros [->|[H1 H2]]; auto.
  - intros [[->|H1] H2]; auto.
  - intros [H1 H2]; auto.
  - intros [[->|H1] H2]; [congruence|auto].
Qed.

(** C3, as the specification states it, fails: a 10-digit remainder that
    begins with 91 is left without the country code. *)
Lemma formatPhoneNumber_ten_digits_from_91 :
  String.length (stripNonDigits "9123456789") = 10%nat
  /\ formatPhoneNumber "9123456789" = "9123456789@c.us"
  /\ normalizeAddress_spec "9123456789" = "919123456789@c.us"
  /\ formatPhoneNumber "9123456789" <> normalizeAddress_spec "9123456789".
Proof. repeat split; discriminate. Qed.

(** C3, amended: [formatPhoneNumber] keeps exactly the digits of its
    input; it prepends 91 when 10 digits remain and they do not already
    begin with 91, leaves the digits as they are otherwise, and appends
    [@c.us] in every case.  It is a total function of the input string. *)
Theorem formatPhoneNumber_normalizes (s : string) :
  allDigits (stripNonDigits s) = true
  /\ (String.length (stripNonDigits s) = 10%nat ->
      startsWith (stripNonDigits s) "91" = false ->
      formatPhoneNumber s = "91" ++ stripNonDigits s ++ "@c.us")
  /\ (String.length (stripNonDigits s) <> 10%nat ->
      formatPhoneNumber s = stripNonDigits s ++ "@c.us")
  /\ (startsWith (stripNonDigits s) "91" = true ->
      formatPhoneNumber s = stripNonDigits s ++ "@c.us")
  /\ (startsWith (stripNonDigits s) "91" = false ->
      formatPhoneNumber s = normalizeAddress_spec s).
Proof.
  unfold formatPhoneNumber, normalizeAddress_spec, countryCode, domainSuffix.
  split; [apply stripNonDigits_allDigits|].
  repeat split.
  - intros Hlen Hpre. rewrite Hpre, Hlen. reflexivity.
  - intros Hlen. apply Nat.eqb_neq in Hlen. rewrite Hlen, andb_false_r.
    reflexivity.
  - intros Hpre. rewrite Hpre. reflexivity.
  - intros Hpre. rewrite Hpre. reflexivity.
Qed.

Lemma formatPhoneNumber_normalizes_witness :
  formatPhoneNumber "(987) 654-3210" = "91" ++ "9876543210" ++ "@c.us".
Proof.
  apply (proj1 (proj2 (formatPhoneNumber_normalizes "(987) 654-3210")));
    reflexivity.
Defined.

End PhoneFacts.

(** ** The map *)

Section MapFacts.

Import JsMap.

Lemma get_In (k : string) (m : t) (v : otpRecord) :
  get k m = Some v -> In (k, v) m.
Proof.
  induction m as [|[k' v'] rest IH]; simpl; [discriminate|].
  destruct (String.eqb_spec k' k) as [->|Hne].
  - intros [= ->]. now left.
  - intros H. right. exact (IH H).
Qed.

Lemma get_None_keys (k : string) (m : t) :
  get k m = None <-> ~ In k (keys m).
Proof.
  induction m as [|[k' v'] rest IH]; simpl; [tauto|].
  destruct (String.eqb_spec k' k) as [->|Hne].
  - split; [discriminate|]. intros H. exfalso. apply H. now left.
  - rewrite IH. split.
    + intros H [Heq|Hin]; [exact (Hne Heq)|exact (H Hin)].
    + intros H Hin. apply H. now right.
Qed.

Lemma In_keys (k : string) (v : otpRecord) (m : t) :
  In (k, v) m -> In k (keys m).
Proof. intros H. exact (in_map fst m (k, v) H). Qed.

Lemma wf_In_get (k : string) (v : otpRecord) (m : t) :
  wf m -> In (k, v) m -> get k m = Some v.
Proof.
  unfold wf. induction m as [|[k' v'] rest IH]; simpl; [tauto|].
  intros Hnd [Heq|Hin]; inversion Hnd as [|? ? Hnotin Hrest]; subst.
  - injection Heq as -> ->. now rewrite String.eqb_refl.
  - destruct (String.eqb_spec k' k) as [->|Hne].
    + exfalso. apply Hnotin. exact (In_keys _ _ _ Hin).
    + exact (IH Hrest Hin).
Qed.

Lemma wf_tail (e : string * otpRecord) (m : t) : wf (e :: m) -> wf m.
Proof. unfold wf. simpl. intros H. now inversion H. Qed.

(** *** set *)

Lemma get_set_same (k : string) (v : otpRecord) (m : t) :
  get k (set k v m) = Some v.
Proof.
  induction m as [|[k' v'] rest IH]; simpl.
  - now rewrite String.eqb_refl.
  - destruct (String.eqb_spec k' k) as [->|Hne]; simpl.
    + now rewrite String.eqb_refl.
    + destruct (String.eqb_spec k' k); [contradiction|exact IH].
Qed.

Lemma get_set_other (k k' : string) (v : otpRecord) (m : t) :
  k <> k' -> get k' (set k v m) = get k' m.
Proof.
  intros Hne. induction m as [|[k0 v0] rest IH]; simpl.
  - destruct (String.eqb_spec k k'); [contradiction|reflexivity].
  - destruct (String.eqb_spec k0 k) as [->|Hne0]; simpl.
    + destruct (String.eqb_spec k k'); [contradiction|reflexivity].
    + destruct (String.eqb_spec k0 k'); [reflexivity|exact IH].
Qed.

Lemma set_fresh (k : string) (v : otpRecord) (m : t) :
  get k m = None -> set k v m = (m ++ [(k, v)])%list.
Proof.
  induction m as [|[k' v'] rest IH]; simpl; [reflexivity|].
  destruct (String.eqb_spec k' k) as [->|Hne]; [discriminate|].
  intros H. now rewrite (IH H).
Qed.


Lemma keys_set (k : string) (v : otpRecord) (m : t) :
  keys (set k v m) = if has k m then keys m else (keys m ++ [k])%list.
Proof.
  unfold has. induction m as [|[k' v'] rest IH]; simpl; [reflexivity|].
  destruct (String.eqb_spec k' k) as [->|Hne]; simpl; [reflexivity|].
  rewrite IH. now destruct (get k rest).
Qed.

Lemma wf_set (k : string) (v : otpRecord) (m : t) : wf m -> wf (set k v m).
Proof.
  unfold wf. rewrite keys_set. unfold has.
  destruct (get k m) eqn:Hget; [tauto|].
  intros Hnd. apply get_None_keys in Hget.
  apply NoDup_app; [exact Hnd|repeat constructor; simpl; tauto|].
  intros x Hx [<-|[]]. exact (Hget Hx).
Qed.

(** *** delete *)

Lemma delete_absent (k : string) (m : t) :
  ~ In k (keys m) -> delete k m = m.
Proof.
  induction m as [|[k' v'] rest IH]; simpl; [reflexivity|].
  intros H. destruct (String.eqb_spec k' k) as [->|Hne]; [tauto|].
  rewrite IH; tauto.
Qed.

Lemma delete_app_absent (k : string) (v : otpRecord) (kept rest : t) :
  ~ In k (keys kept) ->
  delete k (kept ++ (k, v) :: rest)%list = (kept ++ rest)%list.
Proof.
  induction kept as [|[k' v'] kept IH]; simpl.
  - now rewrite String.eqb_refl.
  - intros H. destruct (String.eqb_spec k' k) as [->|Hne]; [tauto|].
    rewrite IH; tauto.
Qed.

Lemma In_delete (e : string * otpRecord) (k : string) (m : t) :
  In e (delete k m) -> In e m.
Proof.
  induction m as [|[k' v'] rest IH]; simpl; [tauto|].
  destruct (k' =? k)%string; simpl; tauto.
Qed.

Lemma keys_delete_incl (x k : string) (m : t) :
  In x (keys (delete k m)) -> In x (keys m).
Proof.
  induction m as [|[k' v'] rest IH]; simpl; [tauto|].
  destruct (k' =? k)%string; simpl; tauto.
Qed.

Lemma wf_delete (k : string) (m : t) : wf m -> wf (delete k m).
Proof.
  unfold wf. induction m as [|[k' v'] rest IH]; simpl; [tauto|].
  intros Hnd. inversion Hnd as [|? ? Hnotin Hrest]; subst.
  destruct (k' =? k)%string; [exact Hrest|].
  simpl. constructor; [|exact (IH Hrest)].
  intros Hin. apply Hnotin. exact (keys_delete_incl _ _ _ Hin).
Qed.

Lemma get_delete_same (k : string) (m : t) :
  wf m -> get k (delete k m) = None.
Proof.
  unfold wf. induction m as [|[k' v'] rest IH]; simpl; [reflexivity|].
  intros Hnd. inversion Hnd as [|? ? Hnotin Hrest]; subst.
  destruct (String.eqb_spec k' k) as [->|Hne].
  - now apply get_None_keys.
  - simpl. destruct (String.eqb_spec k' k); [contradiction|exact (IH Hrest)].
Qed.

Lemma get_delete_other (k k' : string) (m : t) :
  k <> k' -> get k' (delete k m) = get k' m.
Proof.
  intros Hne. induction m as [|[k0 v0] rest IH]; simpl; [reflexivity|].
  destruct (String.eqb_spec k0 k) as [->|Hne0]; simpl.
  - destruct (String.eqb_spec k k'); [contradiction|reflexivity].
  - destruct (k0 =? k')%string; [reflexivity|exact IH].
Qed.

(** *** mutate *)

Lemma keys_mutate (k : string) (f : otpRecord -> otpRecord) (m : t) :
  keys (mutate k f m) = keys m.
Proof.
  induction m as [|[k' v'] rest IH]; simpl; [reflexivity|].
  destruct (k' =? k)%string; simpl; [reflexivity|now rewrite IH].
Qed.

Lemma wf_mutate (k : string) (f : otpRecord -> otpRecord) (m : t) :
  wf m -> wf (mutate k f m).
Proof. unfold wf. now rewrite keys_mutate. Qed.

Lemma get_mutate_same (k : string) (f : otpRecord -> otpRecord) (m : t) :
  get k (mutate k f m) = option_map f (get k m).
Proof.
  induction m as [|[k' v'] rest IH]; simpl; [reflexivity|].
  destruct (String.eqb_spec k' k) as [->|Hne]; simpl.
  - now rewrite String.eqb_refl.
  - destruct (String.eqb_spec k' k); [contradiction|exact IH].
Qed.

Lemma get_mutate_other (k k' : string) (f : otpRecord -> otpRecord) (m : t) :
  k <> k' -> get k' (mutate k f m) = get k' m.
Proof.
  intros Hne. induction m as [|[k0 v0] rest IH]; simpl; [reflexivity|].
  destruct (String.eqb_spec k0 k) as [->|Hne0]; simpl.
  - destruct (String.eqb_spec k k'); [contradiction|reflexivity].
  - destruct (k0 =? k')%string; [reflexivity|exact IH].
Qed.

Lemma size_mutate (k : string) (f : otpRecord -> otpRecord) (m : t) :
  size (mutate k f m) = size m.
Proof.
  unfold size. induction m as [|[k' v'] rest IH]; simpl; [reflexivity|].
  destruct (k' =? k)%string; simpl; [reflexivity|now rewrite IH].
Qed.

End MapFacts.

(** ** The periodic clean-up *)

Section SweepFacts.

Import JsMap Sweep.

Local Open Scope list_scope.

Lemma wf_app_drop (kept rest : t) (e : string * otpRecord) :
  wf (kept ++ e :: rest) -> wf (kept ++ rest) /\ ~ In (fst e) (keys kept).
Proof.
  unfold wf, keys. rewrite !map_app. simpl. intros H. split.
  - exact (NoDup_remove_1 _ _ _ H).
  - intros Hin. apply (NoDup_remove_2 _ _ _ H). apply in_or_app. now left.
Qed.

(** The loop, from any point of the iteration: [kept] are the entries
    already visited and kept, [rest] the entries still to visit. *)
Lemma sweep_loop (now : Z) (rest kept : t) :
  wf (kept ++ rest) ->
  fold_left (sweepStep now) rest (kept ++ rest)%list
  = (kept ++ filter (survives now) rest)%list.
Proof.
  revert kept. induction rest as [|[id r] rest IH]; intros kept Hwf; simpl.
  - reflexivity.
  - destruct (wf_app_drop _ _ _ Hwf) as [Hwf' Hnotin]. simpl in Hnotin.
    unfold survives at 1. simpl.
    destruct (expiresAt r <? now) eqn:Hexp; simpl.
    + rewrite delete_app_absent by exact Hnotin. exact (IH kept Hwf').
    + specialize (IH (kept ++ [(id, r)])%list).
      rewrite <- !app_assoc in IH. simpl in IH. exact (IH Hwf).
Qed.

Lemma sweepExpired_filter (now : Z) (m : t) :
  wf m -> sweepExpired now m = filter (survives now) m.
Proof. intros Hwf. exact (sweep_loop now m [] Hwf). Qed.

Lemma get_filter (f : string * otpRecord -> bool) (k : string) (m : t) :
  wf m ->
  get k (filter f m)
  = match get k m with
    | Some v => if f (k, v) then Some v else None
    | None => None
    end.
Proof.
  induction m as [|[k' v'] rest IH]; simpl; [reflexivity|].
  intros Hwf. pose proof (wf_tail _ _ Hwf) as Hrest.
  unfold wf in Hwf. simpl in Hwf. inversion Hwf as [|? ? Hnotin _]; subst.
  destruct (String.eqb_spec k' k) as [->|Hne].
  - destruct (f (k, v')) eqn:Hf; simpl.
    + now rewrite String.eqb_refl.
    + rewrite (IH Hrest).
      now rewrite (proj2 (get_None_keys k rest) Hnotin).
  - destruct (f (k', v')); simpl.
    + destruct (String.eqb_spec k' k); [contradiction|exact (IH Hrest)].
    + exact (IH Hrest).
Qed.

Lemma wf_sweepExpired (now : Z) (m : t) : wf m -> wf (sweepExpired now m).
Proof.
  intros Hwf. rewrite (sweepExpired_filter now m Hwf).
  unfold wf, keys in *. induction m as [|e rest IH]; simpl; [constructor|].
  simpl in Hwf. inversion Hwf as [|? ? Hnotin Hrest]; subst.
  destruct (survives now e); simpl; [|exact (IH Hrest)].
  constructor; [|exact (IH Hrest)].
  intros Hin. apply Hnotin. apply in_map_iff in Hin as [x [Hx Hin]].
  apply filter_In in Hin as [Hin _]. rewrite <- Hx. now apply in_map.
Qed.

(** C8: the clean-up run at [now] removes every record with
    [expiresAt < now] and no other record, keeping the order of the rest;
    in particular after a run at [expiresAt + 1] the id of the record is
    no longer found. *)
Theorem sweepExpired_removes_exactly (now : Z) (m : JsMap.t) :
  JsMap.wf m ->
  (forall id r, In (id, r) (sweepExpired now m)
                <-> In (id, r) m /\ ~ r.(expiresAt) < now)
  /\ sweepExpired now m = filter (survives now) m
  /\ (forall id r, get id m = Some r ->
        get id (sweepExpired now m)
        = if r.(expiresAt) <? now then None else Some r)
  /\ (forall id r, get id m = Some r ->
        get id (sweepExpired (r.(expiresAt) + 1) m) = None).
Proof.
  intros Hwf. pose proof (sweepExpired_filter now m Hwf) as Hf.
  split; [|split; [exact Hf|split]].
  - intros id r. rewrite Hf, filter_In. unfold survives. simpl.
    rewrite negb_true_iff, Z.ltb_ge. split; intros [Hin Hge]; split;
      try exact Hin; lia.
  - intros id r Hget. rewrite Hf, (get_filter _ _ _ Hwf), Hget.
    unfold survives. simpl. now destruct (expiresAt r <? now).
  - intros id r Hget.
    rewrite (sweepExpired_filter _ m Hwf), (get_filter _ _ _ Hwf), Hget.
    unfold survives. simpl.
    replace (expiresAt r <? expiresAt r + 1) with true; [reflexivity|].
    symmetry. apply Z.ltb_lt. lia.
Qed.

Lemma sweepExpired_removes_exactly_witness :
  JsMap.wf Sample.store1
  /\ sweepExpired (301000 + 1) Sample.store1 = []
  /\ get "otp_1000_abc" (sweepExpired (301000 + 1) Sample.store1) = None.
Proof.
  assert (Hwf : JsMap.wf Sample.store1).
  { repeat constructor. simpl. tauto. }
  split; [exact Hwf|].
  pose proof (sweepExpired_removes_exactly (301000 + 1) Sample.store1 Hwf)
    as (_ & Hfilter & _ & Hget).
  split; [exact Hfilter|].
  exact (Hget "otp_1000_abc"%string Sample.rec1 eq_refl).
Defined.

End SweepFacts.

(** ** The scan by phone number *)

Section ScanFacts.

Import JsMap Verify.
Local Open Scope list_scope.

Variable p : string.

Lemma scanStep_selects (t0 : Z) (f0 : option (string * otpRecord))
    (id : string) (r : otpRecord) :
  pending p r = true -> t0 < r.(createdAt) ->
  scanStep p (t0, f0) (id, r) = (r.(createdAt), Some (id, r)).
Proof.
  unfold pending, scanStep. intros Hp Ht.
  apply andb_true_iff in Hp as [Hph Hv]. rewrite Hph, Hv.
  replace (createdAt r >? t0) with true; [reflexivity|].
  symmetry. apply Z.gtb_lt. exact Ht.
Qed.

Lemma scanStep_skips (t0 : Z) (f0 : option (string * otpRecord))
    (id : string) (r : otpRecord) :
  (pending p r = true -> r.(createdAt) <= t0) ->
  scanStep p (t0, f0) (id, r) = (t0, f0).
Proof.
  unfold pending, scanStep. intros H.
  destruct (phoneNumber r =? p)%string; simpl; [|reflexivity].
  destruct (createdAt r >? t0) eqn:Hgt; simpl; [|reflexivity].
  destruct (verified r); simpl; [reflexivity|].
  apply Z.gtb_lt in Hgt. specialize (H eq_refl). lia.
Qed.

Lemma scan_loop (es : list (string * otpRecord)) :
  forall t0 f0, scanResult p es t0 f0 (fold_left (scanStep p) es (t0, f0)).
Proof.
  unfold scanResult.
  induction es as [|[id r] es IH]; intros t0 f0; cbn [fold_left].
  - left. split; [reflexivity|]. intros e [].
  - destruct (pending p r) eqn:Hp.
    + destruct (Z_lt_le_dec t0 (createdAt r)) as [Hlt|Hle].
      * rewrite (scanStep_selects t0 f0 id r Hp Hlt).
        destruct (IH (createdAt r) (Some (id, r)))
          as [[Hres Hall]|(pre & id' & r' & post & He & Hres & Hp' & Ht & Hpre & Hpost)].
        -- right. exists [], id, r, es. simpl.
           repeat split; auto. intros e [].
        -- right. exists ((id, r) :: pre), id', r', post. subst es. simpl.
           repeat split; auto; try lia.
           intros e [<-|Hin] He'; simpl; [exact Ht|exact (Hpre e Hin He')].
      * rewrite (scanStep_skips t0 f0 id r (fun _ => Hle)).
        destruct (IH t0 f0)
          as [[Hres Hall]|(pre & id' & r' & post & He & Hres & Hp' & Ht & Hpre & Hpost)].
        -- left. split; [exact Hres|].
           intros e [<-|Hin] He'; simpl; [exact Hle|exact (Hall e Hin He')].
        -- right. exists ((id, r) :: pre), id', r', post. subst es. simpl.
           repeat split; auto.
           intros e [<-|Hin] He'; simpl; [lia|exact (Hpre e Hin He')].
    + rewrite (scanStep_skips t0 f0 id r) by (intros Hq; congruence).
      destruct (IH t0 f0)
        as [[Hres Hall]|(pre & id' & r' & post & He & Hres & Hp' & Ht & Hpre & Hpost)].
      * left. split; [exact Hres|].
        intros e [<-|Hin] He'; simpl in *; [congruence|exact (Hall e Hin He')].
      * right. exists ((id, r) :: pre), id', r', post. subst es. simpl.
        repeat split; auto.
        intros e [<-|Hin] He'; simpl in *; [congruence|exact (Hpre e Hin He')].
Qed.

Lemma pending_iff (r : otpRecord) :
  pending p r = true <-> r.(phoneNumber) = p /\ r.(verified) = false.
Proof.
  unfold pending. rewrite andb_true_iff, String.eqb_eq, negb_true_iff.
  tauto.
Qed.

Lemma entry_eq_dec (e1 e2 : string * otpRecord) : {e1 = e2} + {e1 <> e2}.
Proof.
  repeat decide equality;
    try apply Z.eq_dec; try apply Bool.bool_dec; apply string_dec.
Qed.

(** C4, as the specification states it, fails: of two pending records of
    one phone number with the same [createdAt], the scan returns the one
    it meets first, not the one it meets last. *)
Lemma findLatestByPhone_tie_keeps_first :
  JsMap.wf Sample.tieStore
  /\ pending "9876543210" Sample.recA = true
  /\ pending "9876543210" Sample.recB = true
  /\ Sample.recA.(createdAt) = Sample.recB.(createdAt)
  /\ findLatestByPhone "9876543210" Sample.tieStore
     = Some ("otp_1000_a"%string, Sample.recA)
  /\ findLatestByPhone "9876543210" Sample.tieStore
     <> Some ("otp_1000_b"%string, Sample.recB).
Proof.
  repeat split; try discriminate.
  repeat constructor; simpl; intuition discriminate.
Qed.

(** The result of the scan from the initial state of lines 221-222. *)
Lemma findLatestByPhone_scan (m : JsMap.t) :
  match findLatestByPhone p m with
  | Some (id, r) =>
      exists pre post,
        m = pre ++ (id, r) :: post
        /\ r.(phoneNumber) = p
        /\ r.(verified) = false
        /\ 0 < r.(createdAt)
        /\ (forall id' r', In (id', r') pre -> pending p r' = true ->
                           r'.(createdAt) < r.(createdAt))
        /\ (forall id' r', In (id', r') post -> pending p r' = true ->
                           r'.(createdAt) <= r.(createdAt))
  | None =>
      forall id r, In (id, r) m -> pending p r = true -> r.(createdAt) <= 0
  end.
Proof.
  unfold findLatestByPhone, entries.
  destruct (scan_loop m 0 None)
    as [[Hres Hall]|(pre & id & r & post & He & Hres & Hp & Ht & Hpre & Hpost)];
    rewrite Hres; simpl.
  - intros id r Hin. exact (Hall (id, r) Hin).
  - exists pre, post. apply pending_iff in Hp as [Hph Hv].
    repeat split; try assumption.
    + intros id' r' Hin. exact (Hpre (id', r') Hin).
    + intros id' r' Hin. exact (Hpost (id', r') Hin).
Qed.

Lemma findLatestByPhone_In (m : JsMap.t) (id : string) (r : otpRecord) :
  findLatestByPhone p m = Some (id, r) ->
  In (id, r) m /\ r.(phoneNumber) = p /\ r.(verified) = false.
Proof.
  intros H. pose proof (findLatestByPhone_scan m) as Hc.
  rewrite H in Hc. destruct Hc as (pre & post & -> & Hph & Hv & _).
  repeat split; try assumption. apply in_or_app. right. now left.
Qed.

Lemma findLatestByPhone_unique_newest (m : JsMap.t) (id : string)
    (r : otpRecord) :
  In (id, r) m -> pending p r = true -> 0 < r.(createdAt) ->
  (forall id' r', In (id', r') m -> pending p r' = true ->
                  (id', r') <> (id, r) -> r'.(createdAt) < r.(createdAt)) ->
  findLatestByPhone p m = Some (id, r).
Proof.
  intros Hin Hp Ht Hothers.
  pose proof (findLatestByPhone_scan m) as Hc.
  destruct (findLatestByPhone p m) as [[id' r']|].
  - destruct Hc as (pre & post & Hm & Hph & Hv & _ & Hpre & Hpost).
    destruct (entry_eq_dec (id', r') (id, r)) as [Heq|Hne];
      [now rewrite Heq|exfalso].
    assert (Hp' : pending p r' = true) by (apply pending_iff; tauto).
    assert (Hin' : In (id', r') m)
      by (rewrite Hm; apply in_or_app; right; now left).
    pose proof (Hothers id' r' Hin' Hp' Hne) as Hlt.
    rewrite Hm in Hin. apply in_app_or in Hin as [Hin|[Heq|Hin]].
    + pose proof (Hpre id r Hin Hp). lia.
    + exact (Hne Heq).
    + pose proof (Hpost id r Hin Hp). lia.
  - pose proof (Hc id r Hin Hp). lia.
Qed.

(** C4, amended: the scan returns a stored record of the phone number that
    is not verified and has the greatest [createdAt] among such records
    with a positive [createdAt]; when several share that [createdAt], it
    returns the one met first.  It returns nothing exactly when no such
    record has a positive [createdAt]. *)
Theorem findLatestByPhone_first_newest (m : JsMap.t) :
  match findLatestByPhone p m with
  | Some (id, r) =>
      exists pre post,
        m = pre ++ (id, r) :: post
        /\ r.(phoneNumber) = p
        /\ r.(verified) = false
        /\ 0 < r.(createdAt)
        /\ (forall id' r', In (id', r') pre -> pending p r' = true ->
                           r'.(createdAt) < r.(createdAt))
        /\ (forall id' r', In (id', r') post -> pending p r' = true ->
                           r'.(createdAt) <= r.(createdAt))
  | None =>
      forall id r, In (id, r) m -> pending p r = true -> r.(createdAt) <= 0
  end.
Proof. exact (findLatestByPhone_scan m). Qed.

End ScanFacts.

Section LatestPending.

Import JsMap Verify.
Local Open Scope list_scope.

(** C5, as the specification states it, fails: the scan does not look at
    [expiresAt], so it returns an expired record, which the handler then
    rejects as expired. *)
Lemma findLatestByPhone_returns_expired :
  Sample.rec1.(expiresAt) < 400000
  /\ findLatestByPhone "9876543210" Sample.store1
     = Some ("otp_1000_abc"%string, Sample.rec1)
  /\ verifyOtp (Sample.at_ 400000) (Sample.byPhone "9876543210" "123456")
       Sample.store1
     = (Expired, Sample.store1).
Proof. repeat split. Qed.

(** C5, amended: the scan selects only among the records of the phone
    number that are not verified, whether expired or not; a pending record
    with a positive [createdAt] greater than that of every other pending
    record of the number is the one returned, so of two pending records
    created at 100 and at 200 it returns the one created at 200. *)
Theorem findLatestByPhone_pending_only (p : string) (m : JsMap.t) :
  (forall id r, findLatestByPhone p m = Some (id, r) ->
     In (id, r) m /\ r.(phoneNumber) = p /\ r.(verified) = false)
  /\ (forall id r,
        In (id, r) m -> r.(phoneNumber) = p -> r.(verified) = false ->
        0 < r.(createdAt) ->
        (forall id' r', In (id', r') m -> r'.(phoneNumber) = p ->
           r'.(verified) = false -> (id', r') <> (id, r) ->
           r'.(createdAt) < r.(createdAt)) ->
        findLatestByPhone p m = Some (id, r))
  /\ (forall id1 id2 r1 r2,
        r1.(phoneNumber) = p -> r2.(phoneNumber) = p ->
        r1.(verified) = false -> r2.(verified) = false ->
        r1.(createdAt) = 100 -> r2.(createdAt) = 200 ->
        findLatestByPhone p [(id1, r1); (id2, r2)] = Some (id2, r2)
        /\ findLatestByPhone p [(id2, r2); (id1, r1)] = Some (id2, r2)).
Proof.
  split; [|split].
  - intros id r. apply findLatestByPhone_In.
  - intros id r Hin Hph Hv Ht Hothers.
    apply findLatestByPhone_unique_newest; try assumption.
    + apply pending_iff. tauto.
    + intros id' r' Hin' Hp'. apply pending_iff in Hp' as [Hph' Hv'].
      now apply Hothers.
  - intros id1 id2 r1 r2 Hp1 Hp2 Hv1 Hv2 Ht1 Ht2.
    assert (Hq1 : pending p r1 = true) by (apply pending_iff; tauto).
    assert (Hq2 : pending p r2 = true) by (apply pending_iff; tauto).
    unfold findLatestByPhone, entries. cbn [fold_left]. split.
    + rewrite (scanStep_selects p 0 None id1 r1 Hq1) by lia.
      rewrite (scanStep_selects p _ _ id2 r2 Hq2) by lia. reflexivity.
    + rewrite (scanStep_selects p 0 None id2 r2 Hq2) by lia.
      rewrite (scanStep_skips p _ _ id1 r1) by (intros _; lia). reflexivity.
Qed.

Lemma findLatestByPhone_pending_only_witness :
  findLatestByPhone "9876543210" Sample.store1
  = Some ("otp_1000_abc"%string, Sample.rec1).
Proof.
  apply (proj1 (proj2 (findLatestByPhone_pending_only
                         "9876543210" Sample.store1))).
  - simpl. now left.
  - reflexivity.
  - reflexivity.
  - reflexivity.
  - simpl. intros id' r' [H|[]] _ _ Hne. congruence.
Defined.

Lemma findLatestByPhone_first_newest_witness :
  exists pre post,
    Sample.tieStore = pre ++ ("otp_1000_a"%string, Sample.recA) :: post
    /\ Sample.recA.(phoneNumber) = "9876543210"%string
    /\ Sample.recA.(verified) = false
    /\ 0 < Sample.recA.(createdAt)
    /\ (forall id' r', In (id', r') pre ->
          pending "9876543210" r' = true ->
          r'.(createdAt) < Sample.recA.(createdAt))
    /\ (forall id' r', In (id', r') post ->
          pending "9876543210" r' = true ->
          r'.(createdAt) <= Sample.recA.(createdAt)).
Proof. exact (findLatestByPhone_first_newest "9876543210" Sample.tieStore). Defined.

End LatestPending.

(** ** Verification *)

Section VerifyFacts.

Import JsMap Verify.
Local Open Scope list_scope.

Lemma asTruthy_Some (x : option string) (s : string) :
  asTruthy x = Some s <-> x = Some s /\ s <> ""%string.
Proof.
  unfold asTruthy. destruct x as [s'|]; [|split; [discriminate|intros [H _]; discriminate]].
  destruct (String.eqb_spec s' ""%string) as [->|Hne]; split.
  - discriminate.
  - intros [[= <-] H]. contradiction.
  - intros [= <-]. auto.
  - intros [[= <-] _]. reflexivity.
Qed.

Lemma resolve_by_id (b : body) (m : JsMap.t) (id : string) :
  asTruthy b.(otpId) = Some id ->
  resolve b m = match get id m with
                | Some r => Some (id, r)
                | None => None
                end.
Proof. unfold resolve. now intros ->. Qed.

(** Whatever the request, a resolved record is stored under the key it is
    resolved with. *)
Lemma resolve_stored (b : body) (m : JsMap.t) (id : string) (r : otpRecord) :
  wf m -> resolve b m = Some (id, r) -> get id m = Some r.
Proof.
  unfold resolve. intros Hwf.
  destruct (asTruthy (otpId b)) as [id'|].
  - destruct (get id' m) as [r'|] eqn:Hget; [|discriminate].
    now intros [= <- <-].
  - destruct (asTruthy (phone b)) as [p|]; [|discriminate].
    intros H. apply findLatestByPhone_In in H as [Hin _].
    exact (wf_In_get _ _ _ Hwf Hin).
Qed.

(** The four checks of lines 235-252 on a resolved record, in order. *)
Lemma verifyOtp_check_shape (clk : clock) (b : body) (m : JsMap.t)
    (code id : string) (r : otpRecord) :
  asTruthy b.(otpCode) = Some code ->
  resolve b m = Some (id, r) ->
  verifyOtp clk b m
  = if r.(expiresAt) <? clk.(atExpiryCheck) then (Expired, m)
    else if r.(verified) then (AlreadyConsumed, m)
    else if negb (r.(otp) =? code)%string then (CodeMismatch, m)
    else (Verified r.(phoneNumber) clk.(atResponse),
          mutate id (markVerified clk.(atMark)) m).
Proof. unfold verifyOtp. now intros -> ->. Qed.

(** The handler leaves the map as it is or marks one record verified. *)
Lemma verifyOtp_store (clk : clock) (b : body) (m : JsMap.t) :
  snd (verifyOtp clk b m) = m
  \/ exists id, snd (verifyOtp clk b m)
               = mutate id (markVerified clk.(atMark)) m.
Proof.
  unfold verifyOtp.
  destruct (asTruthy (otpCode b)) as [code|]; [|now left].
  destruct (resolve b m) as [[id r]|]; [|now left].
  destruct (expiresAt r <? atExpiryCheck clk); [now left|].
  destruct (verified r); [now left|].
  destruct (negb (otp r =? code)%string); [now left|].
  right. now exists id.
Qed.

(** C2: once the code is present, the handler checks existence, then
    expiry ([now > expiresAt]), then the verified flag, then the code, and
    the first check that fails decides the response, whatever the later
    checks would say; the map changes only when all four pass. *)
Theorem verifyOtp_check_order (clk : clock) (b : body) (m : JsMap.t)
    (code : string) :
  asTruthy b.(otpCode) = Some code ->
  match resolve b m with
  | None => verifyOtp clk b m = (NotFound, m)
  | Some (id, r) =>
      (clk.(atExpiryCheck) > r.(expiresAt) ->
       verifyOtp clk b m = (Expired, m))
      /\ (clk.(atExpiryCheck) <= r.(expiresAt) -> r.(verified) = true ->
          verifyOtp clk b m = (AlreadyConsumed, m))
      /\ (clk.(atExpiryCheck) <= r.(expiresAt) -> r.(verified) = false ->
          r.(otp) <> code ->
          verifyOtp clk b m = (CodeMismatch, m))
      /\ (clk.(atExpiryCheck) <= r.(expiresAt) -> r.(verified) = false ->
          r.(otp) = code ->
          verifyOtp clk b m
          = (Verified r.(phoneNumber) clk.(atResponse),
             mutate id (markVerified clk.(atMark)) m))
  end.
Proof.
  intros Hcode. destruct (resolve b m) as [[id r]|] eqn:Hres.
  - rewrite (verifyOtp_check_shape clk b m code id r Hcode Hres).
    repeat split.
    + intros Hexp. apply Z.gt_lt, Z.ltb_lt in Hexp. now rewrite Hexp.
    + intros Hle Hv. apply Z.ltb_ge in Hle. now rewrite Hle, Hv.
    + intros Hle Hv Hne. apply Z.ltb_ge in Hle.
      apply String.eqb_neq in Hne. now rewrite Hle, Hv, Hne.
    + intros Hle Hv Heq. apply Z.ltb_ge in Hle.
      apply String.eqb_eq in Heq. now rewrite Hle, Hv, Heq.
  - unfold verifyOtp. now rewrite Hcode, Hres.
Qed.

Lemma verifyOtp_check_order_witness :
  verifyOtp (Sample.at_ 400000) (Sample.byId "otp_1000_abc" "000000")
    Sample.store1
  = (Expired, Sample.store1).
Proof.
  apply (proj1 (verifyOtp_check_order (Sample.at_ 400000)
                  (Sample.byId "otp_1000_abc" "000000") Sample.store1
                  "000000" eq_refl)).
  reflexivity.
Defined.

(** C9: a request without an id never gets the already-verified
    response: the scan by phone number passes over verified records, so
    when every record of the number is verified the response is
    'OTP not found'. *)
Theorem verifyOtp_by_phone_never_already_consumed (clk : clock) (b : body)
    (m : JsMap.t) :
  asTruthy b.(otpId) = None ->
  fst (verifyOtp clk b m) <> AlreadyConsumed
  /\ (forall p code,
        asTruthy b.(phone) = Some p ->
        asTruthy b.(otpCode) = Some code ->
        (forall id r, In (id, r) m -> r.(phoneNumber) = p ->
                      r.(verified) = true) ->
        verifyOtp clk b m = (NotFound, m)).
Proof.
  intros Hid. split.
  - unfold verifyOtp, resolve. rewrite Hid.
    destruct (asTruthy (otpCode b)) as [code|]; [|discriminate].
    destruct (asTruthy (phone b)) as [p|]; [|discriminate].
    destruct (findLatestByPhone p m) as [[id r]|] eqn:Hscan; [|discriminate].
    apply findLatestByPhone_In in Hscan as (_ & _ & Hv). rewrite Hv.
    destruct (expiresAt r <? atExpiryCheck clk); [discriminate|].
    destruct (negb (otp r =? code)%string); discriminate.
  - intros p code Hp Hcode Hall.
    unfold verifyOtp, resolve. rewrite Hid, Hcode, Hp.
    destruct (findLatestByPhone p m) as [[id r]|] eqn:Hscan; [|reflexivity].
    apply findLatestByPhone_In in Hscan as (Hin & Hph & Hv).
    rewrite (Hall id r Hin Hph) in Hv. discriminate.
Qed.

Lemma verifyOtp_by_phone_never_already_consumed_witness :
  fst (verifyOtp (Sample.at_ 2000) (Sample.byPhone "9876543210" "123456")
         Sample.store1)
  <> AlreadyConsumed.
Proof.
  exact (proj1 (verifyOtp_by_phone_never_already_consumed (Sample.at_ 2000)
                  (Sample.byPhone "9876543210" "123456") Sample.store1
                  eq_refl)).
Defined.

(** C10: with a non-empty id in the request, the phone number of the
    request does not matter: two requests that differ only in it get the
    same response and leave the same map; in particular a request with
    the right id and code is verified whatever phone number it carries. *)
Theorem verifyOtp_by_id_ignores_phone (clk : clock) (m : JsMap.t)
    (id : string) (code p1 p2 : option string) :
  id <> ""%string ->
  verifyOtp clk (mkBody (Some id) code p1) m
  = verifyOtp clk (mkBody (Some id) code p2) m
  /\ (forall r,
        get id m = Some r -> r.(otp) <> ""%string ->
        code = Some r.(otp) -> r.(verified) = false ->
        clk.(atExpiryCheck) <= r.(expiresAt) ->
        fst (verifyOtp clk (mkBody (Some id) code p1) m)
        = Verified r.(phoneNumber) clk.(atResponse)).
Proof.
  intros Hid.
  assert (Hres : forall p, resolve (mkBody (Some id) code p) m
                           = match get id m with
                             | Some r => Some (id, r)
                             | None => None
                             end).
  { intros p. apply resolve_by_id. cbn [otpId]. apply asTruthy_Some.
    split; [reflexivity|exact Hid]. }
  split.
  - unfold verifyOtp. rewrite (Hres p1), (Hres p2). reflexivity.
  - intros r Hget Hotp -> Hv Hle.
    unfold verifyOtp. rewrite (Hres p1), Hget. simpl.
    apply String.eqb_neq in Hotp. rewrite Hotp.
    apply Z.ltb_ge in Hle. rewrite Hle, Hv, String.eqb_refl. reflexivity.
Qed.

Lemma verifyOtp_by_id_ignores_phone_witness :
  verifyOtp (Sample.at_ 2000)
    (mkBody (Some "otp_1000_abc"%string) (Some "123456"%string)
       (Some "9876543210"%string)) Sample.store1
  = verifyOtp (Sample.at_ 2000)
      (mkBody (Some "otp_1000_abc"%string) (Some "123456"%string)
         (Some "5550000000"%string)) Sample.store1.
Proof.
  apply (verifyOtp_by_id_ignores_phone (Sample.at_ 2000) Sample.store1
           "otp_1000_abc").
  discriminate.
Defined.

End VerifyFacts.

(** ** Issuing *)

Section SendFacts.

Import JsMap Send.
Local Open Scope list_scope.

(** The record [send-otp] stores. *)
Lemma sendOtp_delivered (e : env) (c : connection) (b : body) (m : JsMap.t) :
  delivered e c b = true ->
  exists phoneNumber',
    asTruthy b.(phone) = Some phoneNumber'
    /\ sendOtp e c b m
       = (Sent (makeOtpId e.(atId) e.(idSuffix)) phoneNumber',
          set (makeOtpId e.(atId) e.(idSuffix))
            {| phoneNumber := phoneNumber';
               otp := e.(generatedOtp);
               expiresAt := e.(atExpiry) + 5 * 60 * 1000;
               verified := false;
               createdAt := e.(atCreated);
               verifiedAt := None |} m).
Proof.
  unfold delivered, sendOtp.
  destruct (asTruthy (phone b)) as [ph|]; [|discriminate].
  intros H. apply andb_true_iff in H as [H Hsend].
  apply andb_true_iff in H as [-> ->]. simpl. rewrite Hsend.
  exists ph. split; reflexivity.
Qed.

Lemma sendOtp_not_delivered (e : env) (c : connection) (b : body)
    (m : JsMap.t) :
  delivered e c b = false ->
  snd (sendOtp e c b m) = m
  /\ forall id ph, fst (sendOtp e c b m) <> Sent id ph.
Proof.
  unfold delivered, sendOtp.
  destruct (asTruthy (phone b)) as [ph|]; [|split; [reflexivity|discriminate]].
  destruct (whatsappClient c), (whatsappConnected c); simpl;
    try (intros _; split; [reflexivity|discriminate]).
  intros ->. split; [reflexivity|discriminate].
Qed.

(** The handler leaves the map as it is or stores one record under the
    generated id. *)
Lemma sendOtp_store (e : env) (c : connection) (b : body) (m : JsMap.t) :
  snd (sendOtp e c b m) = m
  \/ exists r, snd (sendOtp e c b m)
              = set (makeOtpId e.(atId) e.(idSuffix)) r m.
Proof.
  destruct (delivered e c b) eqn:Hd.
  - destruct (sendOtp_delivered e c b m Hd) as (ph & _ & ->).
    right. eexists. reflexivity.
  - left. exact (proj1 (sendOtp_not_delivered e c b m Hd)).
Qed.








(** The timestamps of the stored record: [expiresAt] is the reading of
    line 173 plus five minutes, [createdAt] is the reading of line 179. *)
Lemma sendOtp_timestamps (e : env) (c : connection) (b : body) (m : JsMap.t) :
  delivered e c b = true ->
  exists r,
    get (makeOtpId e.(atId) e.(idSuffix)) (snd (sendOtp e c b m)) = Some r
    /\ r.(expiresAt) = e.(atExpiry) + 300000
    /\ r.(createdAt) = e.(atCreated)
    /\ r.(verified) = false.
Proof.
  intros Hd. destruct (sendOtp_delivered e c b m Hd) as (ph & _ & ->).
  simpl. eexists. split; [apply get_set_same|]. simpl. repeat split.
Qed.

(** When the clock does not move between lines 173 and 179, the record
    expires five minutes after its creation. *)
Lemma sendOtp_expiry_steady_clock (e : env) (c : connection) (b : body)
    (m : JsMap.t) :
  delivered e c b = true -> e.(atExpiry) = e.(atCreated) ->
  exists r,
    get (makeOtpId e.(atId) e.(idSuffix)) (snd (sendOtp e c b m)) = Some r
    /\ r.(expiresAt) = r.(createdAt) + fiveMinutes
    /\ r.(expiresAt) > r.(createdAt).
Proof.
  intros Hd Hclock.
  destruct (sendOtp_timestamps e c b m Hd) as (r & Hget & Hexp & Hcr & _).
  exists r. unfold fiveMinutes. repeat split; [exact Hget|lia|lia].
Qed.

(** C7 at a run in which the clock advances by one millisecond between
    the reading of line 173 and the reading of line 179: the stored record
    expires 299999 ms after its [createdAt], not 300000 ms. *)
Theorem sendOtp_expiry_drifts_from_createdAt :
  exists r,
    sendOtp Sample.tickingEnv Sample.connected Sample.request empty
    = (Sent "otp_1000_abc" "9876543210", [("otp_1000_abc"%string, r)])
    /\ r.(createdAt) = 1001
    /\ r.(expiresAt) = 301000
    /\ r.(expiresAt) <> r.(createdAt) + fiveMinutes.
Proof.
  eexists. split; [reflexivity|]. simpl. repeat split. discriminate.
Qed.

End SendFacts.

(** ** Runs of the service *)

Section ServiceFacts.

Import JsMap Service.
Local Open Scope list_scope.

Lemma step_wf (o : op) (m : JsMap.t) : wf m -> wf (step m o).
Proof.
  intros Hwf. destruct o as [e c b|clk b|id|now]; simpl.
  - destruct (sendOtp_store e c b m) as [->|[r ->]];
      [exact Hwf|now apply wf_set].
  - destruct (verifyOtp_store clk b m) as [->|[id ->]];
      [exact Hwf|now apply wf_mutate].
  - now apply wf_delete.
  - now apply wf_sweepExpired.
Qed.

Lemma run_wf (ops : list op) (m : JsMap.t) : wf m -> wf (run ops m).
Proof.
  unfold run. revert m. induction ops as [|o ops IH]; intros m Hwf; simpl;
    [exact Hwf|].
  apply IH. now apply step_wf.
Qed.

(** What one event does to the record under an id it does not generate:
    it removes it, leaves it alone, or marks it verified. *)
Lemma step_get (o : op) (m : JsMap.t) (id : string) :
  wf m -> avoids id [o] ->
  get id (step m o) = None
  \/ get id (step m o) = get id m
  \/ exists now,
       get id (step m o) = option_map (Verify.markVerified now) (get id m).
Proof.
  intros Hwf Hav. destruct o as [e c b|clk b|k|now]; simpl.
  - destruct Hav as [Hne _].
    destruct (sendOtp_store e c b m) as [->|[r ->]]; right; left;
      [reflexivity|now apply get_set_other].
  - destruct (verifyOtp_store clk b m) as [->|[k ->]];
      [right; left; reflexivity|].
    destruct (string_dec k id) as [->|Hne].
    + right. right. exists (Verify.atMark clk). apply get_mutate_same.
    + right. left. now apply get_mutate_other.
  - unfold Send.deferredDelete. destruct (string_dec k id) as [->|Hne].
    + left. now apply get_delete_same.
    + right. left. now apply get_delete_other.
  - rewrite (sweepExpired_filter now m Hwf), (get_filter _ _ _ Hwf).
    destruct (get id m) as [r|]; [|now left].
    destruct (Sweep.survives now (id, r)); [right|]; now left.
Qed.

Lemma step_spent (o : op) (m : JsMap.t) (id : string) :
  wf m -> avoids id [o] -> spent id m -> spent id (step m o).
Proof.
  intros Hwf Hav Hsp r'.
  destruct (step_get o m id Hwf Hav) as [->|[->|[now ->]]].
  - discriminate.
  - apply Hsp.
  - destruct (get id m) as [r|]; simpl; [|discriminate].
    now intros [= <-].
Qed.

Lemma run_spent (ops : list op) (m : JsMap.t) (id : string) :
  wf m -> avoids id ops -> spent id m -> spent id (run ops m).
Proof.
  unfold run. revert m.
  induction ops as [|o ops IH]; intros m Hwf Hav Hsp; simpl; [exact Hsp|].
  assert (Hav1 : avoids id [o] /\ avoids id ops).
  { destruct o; simpl in *; tauto. }
  destruct Hav1 as [Ho Hops].
  apply IH; [now apply step_wf|exact Hops|now apply step_spent].
Qed.

(** The timestamps, the phone number and the code of a stored record are
    never assigned to after the record is stored. *)
Lemma step_keeps_fields (o : op) (m : JsMap.t) (id : string)
    (r r' : otpRecord) :
  wf m -> avoids id [o] ->
  get id m = Some r -> get id (step m o) = Some r' ->
  r'.(createdAt) = r.(createdAt) /\ r'.(expiresAt) = r.(expiresAt)
  /\ r'.(phoneNumber) = r.(phoneNumber) /\ r'.(otp) = r.(otp).
Proof.
  intros Hwf Hav Hget Hget'.
  destruct (step_get o m id Hwf Hav) as [H|[H|[now H]]];
    rewrite H in Hget'; [discriminate| |].
  - rewrite Hget in Hget'. injection Hget' as <-. tauto.
  - rewrite Hget in Hget'. simpl in Hget'. injection Hget' as <-.
    simpl. tauto.
Qed.

(** A request resolved to a spent id is never verified. *)
Lemma verifyOtp_spent (clk : Verify.clock) (b : Verify.body) (m : JsMap.t)
    (id : string) (r : otpRecord) :
  wf m -> spent id m -> Verify.resolve b m = Some (id, r) ->
  fst (Verify.verifyOtp clk b m) = Verify.MissingCode
  \/ fst (Verify.verifyOtp clk b m) = Verify.Expired
  \/ fst (Verify.verifyOtp clk b m) = Verify.AlreadyConsumed.
Proof.
  intros Hwf Hsp Hres.
  pose proof (Hsp r (resolve_stored b m id r Hwf Hres)) as Hv.
  destruct (asTruthy (Verify.otpCode b)) as [code|] eqn:Hcode.
  - rewrite (verifyOtp_check_shape clk b m code id r Hcode Hres), Hv.
    destruct (expiresAt r <? Verify.atExpiryCheck clk); simpl; tauto.
  - left. unfold Verify.verifyOtp. now rewrite Hcode.
Qed.

(** C1, as the specification states it, fails: a second call made after
    [expiresAt] gets 'OTP has expired', not 'OTP already verified'. *)
Lemma verifyOtp_second_call_after_expiry :
  Verify.verifyOtp (Sample.at_ 301000)
    (Sample.byId "otp_1000_abc" "123456") Sample.store1
  = (Verify.Verified "9876543210" 301000, Sample.afterFirst)
  /\ Verify.verifyOtp (Sample.at_ 301001)
       (Sample.byId "otp_1000_abc" "123456") Sample.afterFirst
     = (Verify.Expired, Sample.afterFirst)
  /\ fst (Verify.verifyOtp (Sample.at_ 301001)
            (Sample.byId "otp_1000_abc" "123456") Sample.afterFirst)
     <> Verify.AlreadyConsumed.
Proof. repeat split. discriminate. Qed.

(** C1, amended: for a stored, not yet verified record, a request by its
    id with its code, made when the clock is not after [expiresAt], is
    verified and marks the record verified.  A second request by the same
    id, with any code, gets 'OTP already verified' when the clock is not
    after [expiresAt] and 'OTP has expired' when it is; and whatever
    happens to the map afterwards, short of storing a new record under the
    same id, no request resolved to that id is verified again. *)
Theorem verifyOtp_succeeds_once (m : JsMap.t) (id : string) (r : otpRecord)
    (clk : Verify.clock) (p : option string) :
  wf m -> id <> ""%string -> get id m = Some r ->
  r.(otp) <> ""%string -> r.(verified) = false ->
  clk.(Verify.atExpiryCheck) <= r.(expiresAt) ->
  exists m1,
    Verify.verifyOtp clk (Verify.mkBody (Some id) (Some r.(otp)) p) m
    = (Verify.Verified r.(phoneNumber) clk.(Verify.atResponse), m1)
    /\ get id m1 = Some (Verify.markVerified clk.(Verify.atMark) r)
    /\ (forall k, k <> id -> get k m1 = get k m)
    /\ (forall clk2 code2 p2, code2 <> ""%string ->
          Verify.verifyOtp clk2
            (Verify.mkBody (Some id) (Some code2) p2) m1
          = (if r.(expiresAt) <? clk2.(Verify.atExpiryCheck)
             then Verify.Expired else Verify.AlreadyConsumed, m1))
    /\ (forall ops clk2 b2 r2,
          avoids id ops ->
          Verify.resolve b2 (run ops m1) = Some (id, r2) ->
          forall ph now,
            fst (Verify.verifyOtp clk2 b2 (run ops m1))
            <> Verify.Verified ph now).
Proof.
  intros Hwf Hid Hget Hotp Hv Hle.
  exists (mutate id (Verify.markVerified (Verify.atMark clk)) m).
  assert (Hget1 : get id (mutate id (Verify.markVerified (Verify.atMark clk)) m)
                  = Some (Verify.markVerified (Verify.atMark clk) r)).
  { rewrite get_mutate_same, Hget. reflexivity. }
  assert (Hwf1 : wf (mutate id (Verify.markVerified (Verify.atMark clk)) m))
    by now apply wf_mutate.
  assert (Hsp1 : spent id (mutate id (Verify.markVerified (Verify.atMark clk)) m)).
  { intros r'. rewrite Hget1. now intros [= <-]. }
  split; [|split; [exact Hget1|split; [|split]]].
  - pose proof (verifyOtp_check_shape clk
                  (Verify.mkBody (Some id) (Some (otp r)) p) m (otp r) id r)
      as Hshape.
    rewrite Hshape.
    + apply Z.ltb_ge in Hle. now rewrite Hle, Hv, String.eqb_refl.
    + apply asTruthy_Some. auto.
    + rewrite (resolve_by_id _ m id), Hget; [reflexivity|].
      apply asTruthy_Some. auto.
  - intros k Hne. apply get_mutate_other. congruence.
  - intros clk2 code2 p2 Hcode2.
    rewrite (verifyOtp_check_shape clk2 _ _ code2 id
               (Verify.markVerified (Verify.atMark clk) r)).
    + simpl. now destruct (expiresAt r <? Verify.atExpiryCheck clk2).
    + apply asTruthy_Some. auto.
    + rewrite (resolve_by_id _ _ id), Hget1; [reflexivity|].
      apply asTruthy_Some. auto.
  - intros ops clk2 b2 r2 Hav Hres ph now.
    destruct (verifyOtp_spent clk2 b2 (run ops _) id r2
                (run_wf ops _ Hwf1) (run_spent ops _ id Hwf1 Hav Hsp1) Hres)
      as [->|[->| ->]]; discriminate.
Qed.

Lemma verifyOtp_succeeds_once_witness :
  exists m1,
    Verify.verifyOtp (Sample.at_ 301000)
      (Verify.mkBody (Some "otp_1000_abc"%string) (Some "123456"%string) None)
      Sample.issued
    = (Verify.Verified "9876543210" 301000, m1)
    /\ Verify.verifyOtp (Sample.at_ 301000)
         (Verify.mkBody (Some "otp_1000_abc"%string) (Some "123456"%string)
            None) m1
       = (Verify.AlreadyConsumed, m1).
Proof.
  destruct (verifyOtp_succeeds_once Sample.issued "otp_1000_abc"
              (mkOtpRecord "9876543210" "123456" 301000 false 1001 None)
              (Sample.at_ 301000) None)
    as (m1 & H1 & _ & _ & H2 & _).
  - repeat constructor. simpl. tauto.
  - discriminate.
  - reflexivity.
  - discriminate.
  - reflexivity.
  - simpl. lia.
  - exists m1. split; [exact H1|].
    exact (H2 (Sample.at_ 301000) "123456"%string None
             ltac:(discriminate)).
Defined.

(** The scenario of the specification: no issue while disconnected; once
    connected an issue stores a record; a wrong code is a mismatch, the
    right code verifies, and the same request again finds the record
    already verified. *)
Example issue_then_verify_scenario :
  Send.sendOtp Sample.tickingEnv Sample.disconnected Sample.request empty
  = (Send.NotConnected, empty)
  /\ Send.sendOtp Sample.tickingEnv Sample.connected Sample.request empty
     = (Send.Sent "otp_1000_abc" "9876543210", Sample.issued)
  /\ Verify.verifyOtp (Sample.at_ 2000)
       (Sample.byId "otp_1000_abc" "654321") Sample.issued
     = (Verify.CodeMismatch, Sample.issued)
  /\ fst (Verify.verifyOtp (Sample.at_ 2000)
            (Sample.byId "otp_1000_abc" "123456") Sample.issued)
     = Verify.Verified "9876543210" 2000
  /\ fst (Verify.verifyOtp (Sample.at_ 3000)
            (Sample.byId "otp_1000_abc" "123456")
            (snd (Verify.verifyOtp (Sample.at_ 2000)
                    (Sample.byId "otp_1000_abc" "123456") Sample.issued)))
     = Verify.AlreadyConsumed.
Proof. repeat split. Qed.

End ServiceFacts.

(** * Further properties of the code *)

(** ** formatPhoneNumber *)

Section PhoneMore.

Import Phone.

Lemma append_empty_r (s : string) : s ++ "" = s.
Proof. induction s as [|c rest IH]; simpl; [reflexivity|now rewrite IH]. Qed.

Lemma prefix_empty (s : string) : String.prefix "" s = true.
Proof. now destruct s. Qed.

Lemma formatPhoneNumber_shape (s : string) :
  exists d, allDigits d = true /\ stripNonDigits (d ++ "@c.us") = d
            /\ formatPhoneNumber s = d ++ "@c.us"
            /\ (negb (startsWith d "91") && Nat.eqb (String.length d) 10
                = false)
            /\ (d = "" <-> stripNonDigits s = "").
Proof.
  unfold formatPhoneNumber.
  pose proof (stripNonDigits_allDigits s) as Hd.
  destruct (negb (startsWith (stripNonDigits s) "91")
            && Nat.eqb (String.length (stripNonDigits s)) 10) eqn:Hc.
  - exists ("91" ++ stripNonDigits s).
    split; [exact Hd|split; [|split; [reflexivity|split]]].
    + rewrite stripNonDigits_app.
      replace (stripNonDigits ("91" ++ stripNonDigits s))
        with ("91" ++ stripNonDigits s)
        by (simpl; now rewrite stripNonDigits_idempotent).
      simpl. now rewrite append_empty_r.
    + unfold startsWith. simpl. now rewrite prefix_empty.
    + split; [discriminate|]. intros H. rewrite H in Hc. discriminate.
  - exists (stripNonDigits s).
    split; [exact Hd|split; [|split; [reflexivity|split; [exact Hc|tauto]]]].
    rewrite stripNonDigits_app, stripNonDigits_idempotent. simpl.
    apply append_empty_r.
Qed.

(** X1: formatting an address that is already formatted changes
    nothing. *)
Theorem formatPhoneNumber_idempotent (s : string) :
  formatPhoneNumber (formatPhoneNumber s) = formatPhoneNumber s.
Proof.
  destruct (formatPhoneNumber_shape s) as (d & _ & Hstrip & -> & Hc & _).
  unfold formatPhoneNumber. rewrite Hstrip, Hc. reflexivity.
Qed.

(** X2: the result is the bare suffix exactly when the input holds no
    digit, the empty input in particular; nothing is rejected. *)
Theorem formatPhoneNumber_no_digit (s : string) :
  formatPhoneNumber s = "@c.us"
  <-> forall c, In c (list_ascii_of_string s) -> isDigit c = false.
Proof.
  destruct (formatPhoneNumber_shape s) as (d & Hd & _ & -> & _ & Hempty).
  assert (Hnone : stripNonDigits s = ""
                  <-> forall c, In c (list_ascii_of_string s) ->
                                isDigit c = false).
  { split.
    - intros H c Hin. destruct (isDigit c) eqn:Hc; [|reflexivity].
      assert (Hk : In c (list_ascii_of_string (stripNonDigits s)))
        by (apply stripNonDigits_keeps; auto).
      rewrite H in Hk. destruct Hk.
    - intros H. destruct (stripNonDigits s) as [|c rest] eqn:Hs;
        [reflexivity|].
      assert (Hk : In c (list_ascii_of_string (stripNonDigits s)))
        by (rewrite Hs; now left).
      apply stripNonDigits_keeps in Hk as [Hin Hc].
      rewrite (H c Hin) in Hc. discriminate. }
  rewrite <- Hnone, <- Hempty. split.
  - destruct d as [|c rest]; [reflexivity|]. simpl in *.
    intros [= -> _]. discriminate.
  - intros ->. reflexivity.
Qed.

End PhoneMore.

(** ** The message and the id of an OTP *)

Section MessageFacts.

Import Send Notions.

Lemma substring_all (s : string) : substring 0 (String.length s) s = s.
Proof. induction s as [|c rest IH]; simpl; [reflexivity|now rewrite IH]. Qed.

Lemma prefix_placeholder (c : ascii) (rest : string) :
  Ascii.eqb c "{" = false -> String.prefix "{otp}" (String c rest) = false.
Proof.
  intros H. cbn [String.prefix].
  destruct (ascii_dec "{" c) as [<-|Hne]; [|reflexivity].
  vm_compute in H. discriminate.
Qed.

Lemma replaceFirst_step (replacement : string) (c : ascii) (rest : string) :
  Ascii.eqb c "{" = false ->
  replaceFirst "{otp}" replacement (String c rest)
  = String c (replaceFirst "{otp}" replacement rest).
Proof.
  intros H. cbn [replaceFirst]. now rewrite (prefix_placeholder c rest H).
Qed.

Lemma replaceFirst_braceFree (replacement s : string) :
  braceFree s = true -> replaceFirst "{otp}" replacement s = s.
Proof.
  induction s as [|c rest IH]; [reflexivity|]. simpl braceFree.
  intros H. apply andb_true_iff in H as [Hc Hrest].
  apply negb_true_iff in Hc.
  now rewrite (replaceFirst_step _ c rest Hc), (IH Hrest).
Qed.

Lemma replaceFirst_first (replacement pre post : string) :
  braceFree pre = true ->
  replaceFirst "{otp}" replacement (pre ++ "{otp}" ++ post)
  = pre ++ replacement ++ post.
Proof.
  induction pre as [|c rest IH]; intros H.
  - simpl. rewrite prefix_empty, Nat.sub_0_r, substring_all. reflexivity.
  - simpl in H. apply andb_true_iff in H as [Hc Hrest].
    apply negb_true_iff in Hc.
    change (String c rest ++ "{otp}" ++ post)
      with (String c (rest ++ "{otp}" ++ post)).
    rewrite (replaceFirst_step _ c _ Hc), (IH Hrest). reflexivity.
Qed.

(** X3: a template without an opening brace is sent as it is, whatever
    the code. *)
Theorem otpMessage_without_placeholder (template code : string) :
  template <> "" -> braceFree template = true ->
  Phone.allDigits code = true ->
  otpMessage (Some template) code = template.
Proof.
  intros Hne Hfree _. unfold otpMessage, asTruthy.
  apply String.eqb_neq in Hne. rewrite Hne.
  now apply replaceFirst_braceFree.
Qed.

Lemma otpMessage_without_placeholder_witness :
  otpMessage (Some "Use the code we sent you.") "123456"
  = "Use the code we sent you.".
Proof.
  apply otpMessage_without_placeholder; [discriminate|reflexivity..].
Defined.

(** X4: only the first placeholder of a template is replaced by the code;
    the text after it, further placeholders included, is sent as it is. *)
Theorem otpMessage_first_placeholder (pre post code : string) :
  braceFree pre = true -> Phone.allDigits code = true ->
  otpMessage (Some (pre ++ "{otp}" ++ post)) code = pre ++ code ++ post.
Proof.
  intros Hfree _. unfold otpMessage, asTruthy.
  replace ((pre ++ "{otp}" ++ post =? "")%string) with false.
  - now apply replaceFirst_first.
  - symmetry. apply String.eqb_neq. destruct pre; discriminate.
Qed.

Lemma otpMessage_first_placeholder_witness :
  otpMessage (Some "Code {otp}, again {otp}.") "123456"
  = "Code 123456, again {otp}.".
Proof.
  exact (otpMessage_first_placeholder "Code " ", again {otp}." "123456"
           eq_refl eq_refl).
Defined.

Lemma string_of_uint_underscoreFree (d : Decimal.uint) :
  underscoreFree (NilEmpty.string_of_uint d) = true.
Proof. induction d; simpl; auto. Qed.

Lemma string_of_int_underscoreFree (z : Z) :
  underscoreFree (NilZero.string_of_int (Z.to_int z)) = true.
Proof.
  destruct z as [|p|p]; [reflexivity| |]; simpl;
    unfold NilZero.string_of_uint;
    destruct (Pos.to_uint p); try reflexivity;
    apply (string_of_uint_underscoreFree (_ _)).
Qed.

Lemma string_of_int_inj (z1 z2 : Z) :
  NilZero.string_of_int (Z.to_int z1) = NilZero.string_of_int (Z.to_int z2) ->
  z1 = z2.
Proof.
  intros H. apply DecimalZ.to_int_inj.
  assert (Hok : forall z, Z.to_int z <> Decimal.Pos Decimal.Nil
                          /\ Z.to_int z <> Decimal.Neg Decimal.Nil).
  { intros [|p|p]; simpl; split; try discriminate;
      intros [= Hp]; exact (DecimalPos.Unsigned.to_uint_nonnil p Hp). }
  destruct (Hok z1) as [H1 H1'], (Hok z2) as [H2 H2'].
  pose proof (NilZero.isi _ H1 H1') as E1.
  pose proof (NilZero.isi _ H2 H2') as E2.
  rewrite H in E1. rewrite E1 in E2. now injection E2.
Qed.

(** Two texts cut at their first underscore agree part by part. *)
Lemma separator_inj (a1 a2 b1 b2 : string) :
  underscoreFree a1 = true -> underscoreFree a2 = true ->
  a1 ++ "_" ++ b1 = a2 ++ "_" ++ b2 -> a1 = a2 /\ b1 = b2.
Proof.
  revert a2. induction a1 as [|c1 a1 IH]; intros [|c2 a2] H1 H2 H; simpl in *.
  - injection H as ->. auto.
  - injection H as <- _. simpl in H2. discriminate.
  - injection H as -> _. simpl in H1. discriminate.
  - injection H as -> H.
    apply andb_true_iff in H1 as [_ H1]. apply andb_true_iff in H2 as [_ H2].
    destruct (IH a2 H1 H2 H) as [-> ->]. auto.
Qed.

(** X5: an id determines the clock reading and the random suffix it was
    built from, so two ids built at different clock readings, or with
    different suffixes, are different. *)
Theorem makeOtpId_injective (now1 now2 : Z) (suffix1 suffix2 : string) :
  makeOtpId now1 suffix1 = makeOtpId now2 suffix2 ->
  now1 = now2 /\ suffix1 = suffix2.
Proof.
  unfold makeOtpId. intros H. injection H as H.
  apply separator_inj in H as [Hnow Hsuffix];
    try apply string_of_int_underscoreFree.
  split; [exact (string_of_int_inj _ _ Hnow)|exact Hsuffix].
Qed.

Lemma makeOtpId_injective_witness :
  1730000000000 = 1730000000000 /\ "k3j9x0a1b" = "k3j9x0a1b".
Proof.
  exact (makeOtpId_injective 1730000000000 1730000000000
           "k3j9x0a1b" "k3j9x0a1b" eq_refl).
Defined.

Lemma makeOtpId_truthy (now : Z) (suffix : string) :
  asTruthy (Some (makeOtpId now suffix)) = Some (makeOtpId now suffix).
Proof. reflexivity. Qed.

End MessageFacts.

(** ** Issuing and verifying together *)

Section RoundTrips.

Import JsMap Notions.
Local Open Scope list_scope.

Lemma asTruthy_idem (x : option string) (s : string) :
  asTruthy x = Some s -> asTruthy (Some s) = Some s.
Proof.
  intros H. apply asTruthy_Some in H as [_ Hne]. apply asTruthy_Some. auto.
Qed.

(** The response depends on the map only through the resolved record. *)
Lemma verifyOtp_response_resolve (clk : Verify.clock) (b : Verify.body)
    (m1 m2 : JsMap.t) :
  Verify.resolve b m1 = Verify.resolve b m2 ->
  fst (Verify.verifyOtp clk b m1) = fst (Verify.verifyOtp clk b m2).
Proof.
  unfold Verify.verifyOtp. intros <-.
  destruct (asTruthy (Verify.otpCode b)) as [code|]; [|reflexivity].
  destruct (Verify.resolve b m1) as [[id r]|]; [|reflexivity].
  destruct (expiresAt r <? Verify.atExpiryCheck clk); [reflexivity|].
  destruct (verified r); [reflexivity|].
  destruct (negb (otp r =? code)%string); reflexivity.
Qed.

(** The map changes only when the response is the success, and then only
    by the marking of the resolved, not yet verified record. *)
Lemma verifyOtp_cases (clk : Verify.clock) (b : Verify.body) (m : JsMap.t) :
  (snd (Verify.verifyOtp clk b m) = m
   /\ forall ph now, fst (Verify.verifyOtp clk b m) <> Verify.Verified ph now)
  \/ exists id r,
       Verify.resolve b m = Some (id, r) /\ r.(verified) = false
       /\ Verify.verifyOtp clk b m
          = (Verify.Verified r.(phoneNumber) clk.(Verify.atResponse),
             mutate id (Verify.markVerified clk.(Verify.atMark)) m).
Proof.
  unfold Verify.verifyOtp.
  destruct (asTruthy (Verify.otpCode b)) as [code|];
    [|left; split; [reflexivity|discriminate]].
  destruct (Verify.resolve b m) as [[id r]|];
    [|left; split; [reflexivity|discriminate]].
  destruct (expiresAt r <? Verify.atExpiryCheck clk);
    [left; split; [reflexivity|discriminate]|].
  destruct (verified r) eqn:Hv;
    [left; split; [reflexivity|discriminate]|].
  destruct (negb (otp r =? code)%string);
    [left; split; [reflexivity|discriminate]|].
  right. exists id, r. auto.
Qed.

Lemma In_set (k k' : string) (v v' : otpRecord) (m : JsMap.t) :
  In (k', v') (set k v m) -> (k', v') = (k, v) \/ In (k', v') m.
Proof.
  induction m as [|[k0 v0] rest IH]; simpl.
  - intros [H|[]]. left. now symmetry.
  - destruct (k0 =? k)%string; simpl.
    + intros [H|H]; [left; now symmetry|right; now right].
    + intros [H|H]; [right; now left|].
      destruct (IH H) as [E|E]; [now left|right; now right].
Qed.

Lemma findLatestByPhone_other_numbers (p : string) (m : JsMap.t) :
  (forall k r, In (k, r) m -> r.(phoneNumber) <> p) ->
  Verify.findLatestByPhone p m = None.
Proof.
  intros H. destruct (Verify.findLatestByPhone p m) as [[id r]|] eqn:Hscan;
    [|reflexivity].
  apply findLatestByPhone_In in Hscan as (Hin & Hph & _).
  exfalso. exact (H id r Hin Hph).
Qed.

(** X6: the id returned by a delivering [send-otp] verifies with the
    generated code while the clock is not after the reading of line 173
    plus five minutes, and returns the phone number as it was submitted;
    after that the same request is answered 'OTP has expired'. *)
Theorem issue_then_verify_by_id (e : Send.env) (c : Send.connection)
    (b : Send.body) (m : JsMap.t) (clk : Verify.clock) (p : option string) :
  Send.delivered e c b = true -> e.(Send.generatedOtp) <> ""%string ->
  exists ph,
    asTruthy b.(Send.phone) = Some ph
    /\ fst (Send.sendOtp e c b m)
       = Send.Sent (Send.makeOtpId e.(Send.atId) e.(Send.idSuffix)) ph
    /\ fst (Verify.verifyOtp clk
              (Verify.mkBody
                 (Some (Send.makeOtpId e.(Send.atId) e.(Send.idSuffix)))
                 (Some e.(Send.generatedOtp)) p)
              (snd (Send.sendOtp e c b m)))
       = if e.(Send.atExpiry) + 300000 <? clk.(Verify.atExpiryCheck)
         then Verify.Expired
         else Verify.Verified ph clk.(Verify.atResponse).
Proof.
  intros Hd Hotp.
  destruct (sendOtp_delivered e c b m Hd) as (ph & Hph & Hsend).
  exists ph. rewrite Hsend. simpl fst. simpl snd.
  split; [exact Hph|split; [reflexivity|]].
  rewrite (verifyOtp_check_shape clk _ _ (Send.generatedOtp e)
             (Send.makeOtpId (Send.atId e) (Send.idSuffix e))
             (mkOtpRecord ph (Send.generatedOtp e)
                (Send.atExpiry e + 5 * 60 * 1000) false (Send.atCreated e)
                None)).
  - cbn [expiresAt verified otp phoneNumber].
    change (5 * 60 * 1000) with 300000.
    destruct (Send.atExpiry e + 300000 <? Verify.atExpiryCheck clk);
      [reflexivity|]. now rewrite String.eqb_refl.
  - apply asTruthy_Some. auto.
  - rewrite (resolve_by_id _ _ (Send.makeOtpId (Send.atId e) (Send.idSuffix e)))
      by reflexivity.
    now rewrite get_set_same.
Qed.

Lemma issue_then_verify_by_id_witness :
  exists ph,
    asTruthy Sample.request.(Send.phone) = Some ph
    /\ fst (Send.sendOtp Sample.tickingEnv Sample.connected Sample.request
              Sample.store1)
       = Send.Sent "otp_1000_abc" ph
    /\ fst (Verify.verifyOtp (Sample.at_ 2000)
              (Verify.mkBody (Some "otp_1000_abc"%string)
                 (Some "123456"%string) None)
              (snd (Send.sendOtp Sample.tickingEnv Sample.connected
                      Sample.request Sample.store1)))
       = Verify.Verified ph 2000.
Proof.
  exact (issue_then_verify_by_id Sample.tickingEnv Sample.connected
           Sample.request Sample.store1 (Sample.at_ 2000) None eq_refl
           ltac:(discriminate)).
Defined.

(** X7: a request by phone number alone finds the record just issued
    when its id is new to the map, its [createdAt] is positive and no
    pending record of that number in the map is as recent; it is then
    verified with the generated code under the same time limit. *)
Theorem issue_then_verify_by_phone (e : Send.env) (c : Send.connection)
    (b : Send.body) (m : JsMap.t) (clk : Verify.clock) (ph : string) :
  Send.delivered e c b = true -> e.(Send.generatedOtp) <> ""%string ->
  asTruthy b.(Send.phone) = Some ph ->
  get (Send.makeOtpId e.(Send.atId) e.(Send.idSuffix)) m = None ->
  0 < e.(Send.atCreated) ->
  (forall k r, In (k, r) m -> Verify.pending ph r = true ->
               r.(createdAt) < e.(Send.atCreated)) ->
  clk.(Verify.atExpiryCheck) <= e.(Send.atExpiry) + 300000 ->
  fst (Verify.verifyOtp clk
         (Verify.mkBody None (Some e.(Send.generatedOtp)) (Some ph))
         (snd (Send.sendOtp e c b m)))
  = Verify.Verified ph clk.(Verify.atResponse).
Proof.
  intros Hd Hotp Hph Hfresh Hpos Hnewest Hle.
  destruct (sendOtp_delivered e c b m Hd) as (ph' & Hph' & Hsend).
  rewrite Hph in Hph'. injection Hph' as <-.
  rewrite Hsend. simpl snd. rewrite (set_fresh _ _ _ Hfresh).
  pose (r := mkOtpRecord ph (Send.generatedOtp e)
               (Send.atExpiry e + 5 * 60 * 1000) false (Send.atCreated e)
               None).
  pose (id := Send.makeOtpId (Send.atId e) (Send.idSuffix e)).
  fold r. fold id.
  assert (Hp : Verify.pending ph r = true).
  { apply pending_iff. split; reflexivity. }
  assert (Hscan : Verify.findLatestByPhone ph (m ++ [(id, r)]) = Some (id, r)).
  { apply findLatestByPhone_unique_newest; try assumption.
    - apply in_or_app. right. now left.
    - intros k r' Hin Hp' Hne. apply in_app_or in Hin as [Hin|[Heq|[]]].
      + exact (Hnewest k r' Hin Hp').
      + symmetry in Heq. contradiction. }
  rewrite (verifyOtp_check_shape clk _ _ (Send.generatedOtp e) id r).
  - cbn [expiresAt verified otp phoneNumber r].
    change (5 * 60 * 1000) with 300000.
    apply Z.ltb_ge in Hle. now rewrite Hle, String.eqb_refl.
  - apply asTruthy_Some. auto.
  - unfold Verify.resolve. cbn [Verify.otpId Verify.phone].
    change (asTruthy None) with (@None string). cbv iota.
    rewrite (asTruthy_idem _ _ Hph). exact Hscan.
Qed.

Lemma issue_then_verify_by_phone_witness :
  fst (Verify.verifyOtp (Sample.at_ 2000)
         (Verify.mkBody None (Some "123456"%string)
            (Some "9876543210"%string))
         (snd (Send.sendOtp Sample.tickingEnv Sample.connected Sample.request
                 empty)))
  = Verify.Verified "9876543210" 2000.
Proof.
  apply (issue_then_verify_by_phone Sample.tickingEnv Sample.connected
           Sample.request empty (Sample.at_ 2000) "9876543210");
    try reflexivity.
  - discriminate.
  - intros k r [].
  - simpl. lia.
Defined.

(** X8: a verification request that is not verified leaves the map as it
    was, so after any run of rejected requests the map is unchanged and a
    later request is answered as if they had not been made. *)
Theorem rejected_attempts_change_nothing
    (attempts : list (Verify.clock * Verify.body)) (m : JsMap.t) :
  allRejected attempts m ->
  attemptAll attempts m = m
  /\ forall clk b,
       Verify.verifyOtp clk b (attemptAll attempts m)
       = Verify.verifyOtp clk b m.
Proof.
  intros H. assert (E : attemptAll attempts m = m).
  { unfold attemptAll. revert m H.
    induction attempts as [|[clk b] rest IH]; intros m H; simpl;
      [reflexivity|].
    destruct H as [Hrej Hrest].
    destruct (verifyOtp_cases clk b m) as [[Hsame _]|(id & r & _ & _ & Hok)].
    - rewrite Hsame in *. exact (IH m Hrest).
    - exfalso. apply (Hrej (phoneNumber r) (Verify.atResponse clk)).
      now rewrite Hok. }
  split; [exact E|]. intros clk b. now rewrite E.
Qed.

Lemma rejected_attempts_change_nothing_witness :
  attemptAll
    [(Sample.at_ 2000, Sample.byId "otp_1000_abc" "000000");
     (Sample.at_ 3000, Sample.byPhone "9876543210" "999999")]
    Sample.store1
  = Sample.store1.
Proof.
  apply rejected_attempts_change_nothing.
  simpl. repeat split; discriminate.
Defined.

(** X9: verification never adds or removes a record, and on a map with
    unique keys it never touches the phone number, the code or the
    timestamps of any record, nor any record that is already verified. *)
Theorem verifyOtp_keeps_records (clk : Verify.clock) (b : Verify.body)
    (m : JsMap.t) :
  wf m ->
  keys (snd (Verify.verifyOtp clk b m)) = keys m
  /\ forall k r,
       get k m = Some r ->
       exists r',
         get k (snd (Verify.verifyOtp clk b m)) = Some r'
         /\ r'.(phoneNumber) = r.(phoneNumber) /\ r'.(otp) = r.(otp)
         /\ r'.(createdAt) = r.(createdAt)
         /\ r'.(expiresAt) = r.(expiresAt)
         /\ (r.(verified) = true -> r' = r).
Proof.
  intros Hwf.
  destruct (verifyOtp_cases clk b m) as [[Hsame _]|(id & r0 & Hres & Hv & Hok)].
  - rewrite Hsame. split; [reflexivity|].
    intros k r Hget. exists r. repeat split; auto.
  - rewrite Hok. simpl snd. split; [apply keys_mutate|].
    intros k r Hget. destruct (string_dec id k) as [->|Hne].
    + rewrite get_mutate_same, Hget. simpl.
      eexists. split; [reflexivity|]. simpl. repeat split.
      intros Hvr. rewrite (resolve_stored b m k r0 Hwf Hres) in Hget.
      injection Hget as <-. congruence.
    + rewrite (get_mutate_other _ _ _ _ Hne), Hget.
      exists r. repeat split; auto.
Qed.

Lemma verifyOtp_keeps_records_witness :
  keys (snd (Verify.verifyOtp (Sample.at_ 2000)
               (Sample.byId "otp_1000_a" "111111") Sample.tieStore))
  = keys Sample.tieStore.
Proof.
  apply (verifyOtp_keeps_records (Sample.at_ 2000)
           (Sample.byId "otp_1000_a" "111111") Sample.tieStore).
  repeat constructor; simpl; intuition discriminate.
Defined.

(** X10: the phone number of a request is compared with the stored one as
    text: a record issued for one spelling of a number is not found by a
    request that spells the number differently, even when both spellings
    are formatted to the same address. *)
Theorem verify_by_phone_compares_text (e : Send.env) (c : Send.connection)
    (b : Send.body) (m : JsMap.t) (clk : Verify.clock)
    (ph ph' code : string) :
  asTruthy b.(Send.phone) = Some ph -> ph' <> ph -> code <> ""%string ->
  (forall k r, In (k, r) m -> r.(phoneNumber) <> ph') ->
  fst (Verify.verifyOtp clk (Verify.mkBody None (Some code) (Some ph'))
         (snd (Send.sendOtp e c b m)))
  = Verify.NotFound.
Proof.
  intros Hph Hne Hcode Hnone.
  assert (Hafter : forall k r, In (k, r) (snd (Send.sendOtp e c b m)) ->
                               phoneNumber r <> ph').
  { destruct (Send.delivered e c b) eqn:Hd.
    - destruct (sendOtp_delivered e c b m Hd) as (ph0 & Hph0 & ->).
      rewrite Hph in Hph0. injection Hph0 as <-. simpl snd.
      intros k r Hin. apply In_set in Hin as [[= -> ->]|Hin].
      + simpl. congruence.
      + exact (Hnone k r Hin).
    - rewrite (proj1 (sendOtp_not_delivered e c b m Hd)). exact Hnone. }
  unfold Verify.verifyOtp, Verify.resolve.
  cbn [Verify.otpCode Verify.otpId Verify.phone].
  replace (asTruthy (Some code)) with (Some code)
    by (symmetry; apply asTruthy_Some; auto).
  cbn [asTruthy].
  destruct (ph' =? "")%string; [reflexivity|].
  now rewrite (findLatestByPhone_other_numbers ph' _ Hafter).
Qed.

Lemma verify_by_phone_compares_text_witness :
  Phone.formatPhoneNumber "+91 98765 43210"
  = Phone.formatPhoneNumber "9876543210"
  /\ fst (Verify.verifyOtp (Sample.at_ 2000)
            (Verify.mkBody None (Some "123456"%string)
               (Some "+91 98765 43210"%string))
            (snd (Send.sendOtp Sample.tickingEnv Sample.connected
                    Sample.request empty)))
     = Verify.NotFound.
Proof.
  split; [reflexivity|].
  apply (verify_by_phone_compares_text Sample.tickingEnv Sample.connected
           Sample.request empty (Sample.at_ 2000) "9876543210");
    try reflexivity; try discriminate.
  intros k r [].
Defined.

End RoundTrips.

(** ** Clean-up, deferred deletion and the statistics *)

Section Housekeeping.

Import JsMap Sweep Stats Notions.
Local Open Scope list_scope.

Lemma filter_twice {A : Type} (f g : A -> bool) (l : list A) :
  filter f (filter g l) = filter (fun x => g x && f x) l.
Proof.
  induction l as [|x l IH]; simpl; [reflexivity|].
  destruct (g x); simpl; [|exact IH]. destruct (f x); now rewrite IH.
Qed.

Lemma survives_max (t1 t2 : Z) (e : string * otpRecord) :
  survives t1 e && survives t2 e = survives (Z.max t1 t2) e.
Proof.
  unfold survives.
  destruct (expiresAt (snd e) <? t1) eqn:H1,
           (expiresAt (snd e) <? t2) eqn:H2,
           (expiresAt (snd e) <? Z.max t1 t2) eqn:H3; simpl;
    try reflexivity;
    rewrite ?Z.ltb_lt, ?Z.ltb_ge in *; lia.
Qed.

(** X11: two clean-ups in a row amount to one at the later of the two
    clock readings; in particular a clean-up repeated at the same reading
    removes nothing more. *)
Theorem sweepExpired_twice (t1 t2 : Z) (m : JsMap.t) :
  wf m ->
  sweepExpired t2 (sweepExpired t1 m) = sweepExpired (Z.max t1 t2) m
  /\ sweepExpired t1 (sweepExpired t1 m) = sweepExpired t1 m.
Proof.
  intros Hwf.
  assert (H : forall a b, sweepExpired b (sweepExpired a m)
                          = sweepExpired (Z.max a b) m).
  { intros a b.
    rewrite (sweepExpired_filter b _ (wf_sweepExpired a m Hwf)).
    rewrite !(sweepExpired_filter _ m Hwf), filter_twice.
    apply filter_ext. intros e. apply survives_max. }
  split; [apply H|]. rewrite H. now rewrite Z.max_id.
Qed.

Lemma sweepExpired_twice_witness :
  sweepExpired 400000 (sweepExpired 2000 Sample.tieStore)
  = sweepExpired (Z.max 2000 400000) Sample.tieStore.
Proof.
  apply (sweepExpired_twice 2000 400000 Sample.tieStore).
  repeat constructor; simpl; intuition discriminate.
Defined.

Lemma delete_filter (f : string * otpRecord -> bool) (k : string) (m : t) :
  wf m -> delete k (filter f m) = filter f (delete k m).
Proof.
  induction m as [|[k' v'] rest IH]; intros Hwf; [reflexivity|].
  pose proof (wf_tail _ _ Hwf) as Hrest.
  unfold wf in Hwf. simpl in Hwf. inversion Hwf as [|? ? Hnotin _]; subst.
  cbn [filter delete].
  destruct (String.eqb_spec k' k) as [->|Hne].
  - destruct (f (k, v')); cbn [delete].
    + now rewrite String.eqb_refl.
    + apply delete_absent. intros Hin. apply Hnotin.
      unfold keys in *. apply in_map_iff in Hin as [x [Hx Hin]].
      apply filter_In in Hin as [Hin _]. rewrite <- Hx. now apply in_map.
  - cbn [filter]. destruct (f (k', v')); cbn [delete].
    + destruct (String.eqb_spec k' k); [contradiction|].
      now rewrite (IH Hrest).
    + exact (IH Hrest).
Qed.

(** X12: the deferred deletion of an id and the clean-up can run in
    either order with the same result, and deleting an id a second time,
    or an id that is not stored, changes nothing. *)
Theorem deferredDelete_sweepExpired_commute (k : string) (now : Z)
    (m : JsMap.t) :
  wf m ->
  Send.deferredDelete k (sweepExpired now m)
  = sweepExpired now (Send.deferredDelete k m)
  /\ Send.deferredDelete k (Send.deferredDelete k m)
     = Send.deferredDelete k m
  /\ (get k m = None -> Send.deferredDelete k m = m).
Proof.
  intros Hwf. unfold Send.deferredDelete. split; [|split].
  - rewrite (sweepExpired_filter now m Hwf).
    rewrite (sweepExpired_filter now _ (wf_delete k m Hwf)).
    now apply delete_filter.
  - apply delete_absent. apply get_None_keys. now apply get_delete_same.
  - intros H. apply delete_absent. now apply get_None_keys.
Qed.

Lemma deferredDelete_sweepExpired_commute_witness :
  Send.deferredDelete "otp_1000_a" (sweepExpired 2000 Sample.tieStore)
  = sweepExpired 2000 (Send.deferredDelete "otp_1000_a" Sample.tieStore).
Proof.
  apply (deferredDelete_sweepExpired_commute "otp_1000_a" 2000
           Sample.tieStore).
  repeat constructor; simpl; intuition discriminate.
Defined.

(** X13: once the deferred deletion of an id has run, a request by that
    id is answered 'OTP not found', whatever its code; requests by other
    ids are answered as before. *)
Theorem verify_after_deferredDelete (k : string) (m : JsMap.t)
    (clk : Verify.clock) (code : string) (p : option string) :
  wf m -> k <> ""%string -> code <> ""%string ->
  Verify.verifyOtp clk (Verify.mkBody (Some k) (Some code) p)
    (Send.deferredDelete k m)
  = (Verify.NotFound, Send.deferredDelete k m)
  /\ forall k', k' <> k -> k' <> ""%string ->
       fst (Verify.verifyOtp clk (Verify.mkBody (Some k') (Some code) p)
              (Send.deferredDelete k m))
       = fst (Verify.verifyOtp clk (Verify.mkBody (Some k') (Some code) p) m).
Proof.
  intros Hwf Hk Hcode. unfold Send.deferredDelete. split.
  - unfold Verify.verifyOtp.
    rewrite (resolve_by_id _ _ k) by (apply asTruthy_Some; auto).
    rewrite (get_delete_same k m Hwf). cbn [Verify.otpCode].
    now replace (asTruthy (Some code)) with (Some code)
      by (symmetry; apply asTruthy_Some; auto).
  - intros k' Hne Hk'. apply verifyOtp_response_resolve.
    rewrite !(resolve_by_id _ _ k') by (apply asTruthy_Some; auto).
    rewrite get_delete_other by congruence. reflexivity.
Qed.

Lemma verify_after_deferredDelete_witness :
  Verify.verifyOtp (Sample.at_ 2000)
    (Verify.mkBody (Some "otp_1000_abc"%string) (Some "123456"%string) None)
    (Send.deferredDelete "otp_1000_abc" Sample.store1)
  = (Verify.NotFound, Send.deferredDelete "otp_1000_abc" Sample.store1).
Proof.
  apply (verify_after_deferredDelete "otp_1000_abc" Sample.store1
           (Sample.at_ 2000) "123456" None); try discriminate.
  repeat constructor. simpl. tauto.
Defined.

(** X14: a clean-up that ran no later than the expiry check of a request
    by id does not change the answer, except that 'OTP has expired'
    becomes 'OTP not found' for a record it removed. *)
Theorem verify_after_sweepExpired (now : Z) (m : JsMap.t)
    (clk : Verify.clock) (k : string) (code p : option string) :
  wf m -> k <> ""%string -> now <= clk.(Verify.atExpiryCheck) ->
  fst (Verify.verifyOtp clk (Verify.mkBody (Some k) code p)
         (sweepExpired now m))
  = fst (Verify.verifyOtp clk (Verify.mkBody (Some k) code p) m)
  \/ (fst (Verify.verifyOtp clk (Verify.mkBody (Some k) code p) m)
      = Verify.Expired
      /\ fst (Verify.verifyOtp clk (Verify.mkBody (Some k) code p)
                (sweepExpired now m))
         = Verify.NotFound).
Proof.
  intros Hwf Hk Hle.
  assert (Hid : asTruthy (Some k) = Some k) by (apply asTruthy_Some; auto).
  assert (Hres : forall m', Verify.resolve (Verify.mkBody (Some k) code p) m'
                            = match get k m' with
                              | Some r => Some (k, r)
                              | None => None
                              end)
    by (intros m'; now apply resolve_by_id).
  pose proof (sweepExpired_filter now m Hwf) as Hf.
  pose proof (get_filter (survives now) k m Hwf) as Hget.
  destruct (get k m) as [r|] eqn:Hk0.
  - destruct (survives now (k, r)) eqn:Hs.
    + left. apply verifyOtp_response_resolve.
      now rewrite !Hres, Hf, Hget, Hk0.
    + destruct (asTruthy code) as [c|] eqn:Hcode.
      * right. unfold Verify.verifyOtp. cbn [Verify.otpCode].
        rewrite Hcode, !Hres, Hf, Hget, Hk0.
        unfold survives in Hs. simpl in Hs.
        apply negb_false_iff, Z.ltb_lt in Hs.
        replace (expiresAt r <? Verify.atExpiryCheck clk) with true
          by (symmetry; apply Z.ltb_lt; lia).
        split; reflexivity.
      * left. unfold Verify.verifyOtp. cbn [Verify.otpCode].
        now rewrite Hcode.
  - left. apply verifyOtp_response_resolve.
    now rewrite !Hres, Hf, Hget, Hk0.
Qed.

Lemma verify_after_sweepExpired_witness :
  fst (Verify.verifyOtp (Sample.at_ 400000)
         (Verify.mkBody (Some "otp_1000_abc"%string)
            (Some "123456"%string) None)
         (sweepExpired 400000 Sample.store1))
  = fst (Verify.verifyOtp (Sample.at_ 400000)
           (Verify.mkBody (Some "otp_1000_abc"%string)
              (Some "123456"%string) None) Sample.store1)
  \/ (fst (Verify.verifyOtp (Sample.at_ 400000)
             (Verify.mkBody (Some "otp_1000_abc"%string)
                (Some "123456"%string) None) Sample.store1)
      = Verify.Expired
      /\ fst (Verify.verifyOtp (Sample.at_ 400000)
                (Verify.mkBody (Some "otp_1000_abc"%string)
                   (Some "123456"%string) None)
                (sweepExpired 400000 Sample.store1))
         = Verify.NotFound).
Proof.
  apply (verify_after_sweepExpired 400000 Sample.store1 (Sample.at_ 400000)
           "otp_1000_abc" (Some "123456"%string) None).
  - repeat constructor. simpl. tauto.
  - discriminate.
  - simpl. lia.
Defined.

End Housekeeping.

(** ** The statistics *)

Section StatsFacts.

Import JsMap Sweep Stats Notions.
Local Open Scope list_scope.

Lemma countActive_bound (clock : nat -> Z) (es : list (string * otpRecord)) :
  forall i, (countActive clock i es <= List.length es)%nat.
Proof.
  induction es as [|[k r] es IH]; intros i; simpl; [lia|].
  specialize (IH (S i)). destruct (isActive (clock i) r); lia.
Qed.

Lemma countActive_steady (now : Z) (es : list (string * otpRecord)) :
  forall i, countActive (steady now) i es
            = List.length (filter (fun e => isActive now (snd e)) es).
Proof.
  induction es as [|[k r] es IH]; intros i; simpl; [reflexivity|].
  rewrite (IH (S i)). unfold steady. now destruct (isActive now r).
Qed.

Lemma isActive_markVerified (t now : Z) (r : otpRecord) :
  isActive t (Verify.markVerified now r) = false.
Proof. unfold isActive. simpl. apply andb_false_r. Qed.

Lemma isActive_before_expiry (t : Z) (r : otpRecord) :
  r.(verified) = false -> t < r.(expiresAt) -> isActive t r = true.
Proof.
  intros Hv Ht. unfold isActive. rewrite Hv.
  apply Z.gtb_lt in Ht. now rewrite Ht.
Qed.

Lemma countActive_mutate (clock : nat -> Z) (k : string) (r : otpRecord)
    (now : Z) (m : JsMap.t) :
  get k m = Some r -> r.(verified) = false ->
  forall i,
    (countActive clock i (mutate k (Verify.markVerified now) m)
     <= countActive clock i m)%nat
    /\ ((forall j, clock j < r.(expiresAt)) ->
        countActive clock i m
        = S (countActive clock i (mutate k (Verify.markVerified now) m))).
Proof.
  intros Hget Hv. induction m as [|[k' v'] rest IH]; [discriminate|].
  simpl in Hget. intros i. cbn [mutate countActive].
  destruct (String.eqb_spec k' k) as [->|Hne].
  - injection Hget as ->. cbn [countActive].
    rewrite isActive_markVerified. split.
    + destruct (isActive (clock i) r); lia.
    + intros Hclock.
      now rewrite (isActive_before_expiry (clock i) r Hv (Hclock i)).
  - cbn [countActive]. destruct (IH Hget (S i)) as [Hle Heq]. split.
    + destruct (isActive (clock i) v'); lia.
    + intros Hclock. rewrite (Heq Hclock).
      destruct (isActive (clock i) v'); lia.
Qed.

(** X15: a verified request leaves the total number of records as it was
    and never raises the number of active ones; when every clock reading
    of the count is before the expiry of the verified record, that number
    goes down by exactly one.  The active number never exceeds the
    total. *)
Theorem verified_request_and_statistics (clk : Verify.clock)
    (b : Verify.body) (m : JsMap.t) (ph : string) (at' : Z) :
  wf m ->
  fst (Verify.verifyOtp clk b m) = Verify.Verified ph at' ->
  exists id r,
    Verify.resolve b m = Some (id, r)
    /\ totalOTPs (snd (Verify.verifyOtp clk b m)) = totalOTPs m
    /\ (forall clock,
          (activeOTPs clock (snd (Verify.verifyOtp clk b m))
           <= activeOTPs clock m <= totalOTPs m)%nat)
    /\ (forall clock,
          (forall j, clock j < r.(expiresAt)) ->
          activeOTPs clock m
          = S (activeOTPs clock (snd (Verify.verifyOtp clk b m)))).
Proof.
  intros Hwf Hok.
  destruct (verifyOtp_cases clk b m) as [[_ Hrej]|(id & r & Hres & Hv & Heq)].
  - exfalso. exact (Hrej ph at' Hok).
  - exists id, r. rewrite Heq. simpl snd.
    pose proof (resolve_stored b m id r Hwf Hres) as Hget.
    split; [exact Hres|split; [apply size_mutate|split]].
    + intros clock. unfold activeOTPs, totalOTPs, entries, size. split.
      * exact (proj1 (countActive_mutate clock id r _ m Hget Hv 0%nat)).
      * apply countActive_bound.
    + intros clock Hclock. unfold activeOTPs, entries.
      exact (proj2 (countActive_mutate clock id r _ m Hget Hv 0%nat) Hclock).
Qed.

Lemma verified_request_and_statistics_witness :
  exists id r,
    Verify.resolve (Sample.byId "otp_1000_a" "111111") Sample.tieStore
    = Some (id, r)
    /\ activeOTPs (steady 2000) Sample.tieStore
       = S (activeOTPs (steady 2000)
              (snd (Verify.verifyOtp (Sample.at_ 2000)
                      (Sample.byId "otp_1000_a" "111111")
                      Sample.tieStore))).
Proof.
  destruct (verified_request_and_statistics (Sample.at_ 2000)
              (Sample.byId "otp_1000_a" "111111") Sample.tieStore
              "9876543210" 2000)
    as (id & r & Hres & _ & _ & Hone).
  - repeat constructor; simpl; intuition discriminate.
  - reflexivity.
  - exists id, r. split; [exact Hres|]. apply Hone.
    intros j. injection Hres as _ <-. reflexivity.
Defined.

(** X16: at the clock reading equal to [expiresAt] a pending record is
    not counted as active, yet the clean-up keeps it and a request by its
    id with its code is still verified. *)
Theorem record_at_its_expiry_instant (m : JsMap.t) (k : string)
    (r : otpRecord) (mark resp : Z) (p : option string) :
  wf m -> k <> ""%string -> get k m = Some r ->
  r.(verified) = false -> r.(otp) <> ""%string ->
  isActive r.(expiresAt) r = false
  /\ get k (sweepExpired r.(expiresAt) m) = Some r
  /\ fst (Verify.verifyOtp (Verify.mkClock r.(expiresAt) mark resp)
            (Verify.mkBody (Some k) (Some r.(otp)) p) m)
     = Verify.Verified r.(phoneNumber) resp.
Proof.
  intros Hwf Hk Hget Hv Hotp. split; [|split].
  - unfold isActive. now rewrite Z.gtb_ltb, Z.ltb_irrefl.
  - rewrite (sweepExpired_filter _ m Hwf), (get_filter _ _ _ Hwf), Hget.
    unfold survives. simpl. now rewrite Z.ltb_irrefl.
  - rewrite (verifyOtp_check_shape _ _ m (otp r) k r).
    + cbn [Verify.atExpiryCheck Verify.atResponse].
      now rewrite Z.ltb_irrefl, Hv, String.eqb_refl.
    + apply asTruthy_Some. auto.
    + rewrite (resolve_by_id _ m k), Hget; [reflexivity|].
      apply asTruthy_Some. auto.
Qed.

Lemma record_at_its_expiry_instant_witness :
  isActive 301000 Sample.rec1 = false
  /\ get "otp_1000_abc" (sweepExpired 301000 Sample.store1)
     = Some Sample.rec1
  /\ fst (Verify.verifyOtp (Verify.mkClock 301000 301000 301000)
            (Verify.mkBody (Some "otp_1000_abc"%string)
               (Some "123456"%string) None) Sample.store1)
     = Verify.Verified "9876543210" 301000.
Proof.
  apply (record_at_its_expiry_instant Sample.store1 "otp_1000_abc"
           Sample.rec1 301000 301000 None); try discriminate;
    try reflexivity.
  repeat constructor. simpl. tauto.
Defined.

(** X17: a clean-up run no later than the clock reading of the count
    removes no active record: with a clock that stands still at [now],
    the number of active records is the same before and after. *)
Theorem sweepExpired_keeps_active (swept now : Z) (m : JsMap.t) :
  wf m -> swept <= now ->
  activeOTPs (steady now) (sweepExpired swept m)
  = activeOTPs (steady now) m.
Proof.
  intros Hwf Hle. unfold activeOTPs, entries.
  rewrite (sweepExpired_filter swept m Hwf), !countActive_steady.
  rewrite filter_twice. f_equal. apply filter_ext. intros [k r].
  unfold survives, isActive. simpl.
  destruct (expiresAt r >? now) eqn:Hgt; simpl;
    [|now rewrite andb_false_r].
  apply Z.gtb_lt in Hgt.
  replace (expiresAt r <? swept) with false
    by (symmetry; apply Z.ltb_ge; lia).
  reflexivity.
Qed.

Lemma sweepExpired_keeps_active_witness :
  activeOTPs (steady 2000) (sweepExpired 2000 Sample.tieStore)
  = activeOTPs (steady 2000) Sample.tieStore.
Proof.
  apply sweepExpired_keeps_active; [|lia].
  repeat constructor; simpl; intuition discriminate.
Defined.

End StatsFacts.

(** ** Runs of the service, continued *)

Section RunFacts.

Import JsMap Service Notions.
Local Open Scope list_scope.

(** X18: issuing a code does not invalidate the codes issued before: a
    request by any other id is answered after the [send-otp] as it would
    have been before it. *)
Theorem sendOtp_keeps_earlier_codes (e : Send.env) (c : Send.connection)
    (b : Send.body) (m : JsMap.t) (clk : Verify.clock) (k : string)
    (code p : option string) :
  k <> ""%string ->
  k <> Send.makeOtpId e.(Send.atId) e.(Send.idSuffix) ->
  fst (Verify.verifyOtp clk (Verify.mkBody (Some k) code p)
         (snd (Send.sendOtp e c b m)))
  = fst (Verify.verifyOtp clk (Verify.mkBody (Some k) code p) m).
Proof.
  intros Hk Hne. apply verifyOtp_response_resolve.
  rewrite !(resolve_by_id _ _ k) by (apply asTruthy_Some; auto).
  destruct (sendOtp_store e c b m) as [->|[r ->]]; [reflexivity|].
  rewrite get_set_other by congruence. reflexivity.
Qed.

Lemma sendOtp_keeps_earlier_codes_witness :
  fst (Verify.verifyOtp (Sample.at_ 2000)
         (Verify.mkBody (Some "otp_1000_a"%string) (Some "111111"%string)
            None)
         (snd (Send.sendOtp Sample.tickingEnv Sample.connected Sample.request
                 Sample.tieStore)))
  = fst (Verify.verifyOtp (Sample.at_ 2000)
           (Verify.mkBody (Some "otp_1000_a"%string) (Some "111111"%string)
              None) Sample.tieStore).
Proof.
  apply sendOtp_keeps_earlier_codes; discriminate.
Defined.

Lemma step_stamped (o : op) (m : JsMap.t) :
  wf m -> stamped m -> stamped (step m o).
Proof.
  intros Hwf Hst k r. destruct o as [e c b|clk b|id|now]; simpl.
  - destruct (Send.delivered e c b) eqn:Hd.
    + destruct (sendOtp_delivered e c b m Hd) as (ph & _ & ->). simpl snd.
      destruct (string_dec (Send.makeOtpId (Send.atId e) (Send.idSuffix e)) k)
        as [<-|Hne].
      * rewrite get_set_same. intros [= <-]. discriminate.
      * rewrite (get_set_other _ _ _ _ Hne). apply Hst.
    + rewrite (proj1 (sendOtp_not_delivered e c b m Hd)). apply Hst.
  - destruct (verifyOtp_store clk b m) as [->|[id ->]]; [apply Hst|].
    destruct (string_dec id k) as [->|Hne].
    + rewrite get_mutate_same. destruct (get k m); [|discriminate].
      intros [= <-] _. discriminate.
    + rewrite (get_mutate_other _ _ _ _ Hne). apply Hst.
  - unfold Send.deferredDelete. destruct (string_dec id k) as [->|Hne].
    + now rewrite get_delete_same.
    + rewrite (get_delete_other _ _ _ Hne). apply Hst.
  - rewrite (sweepExpired_filter now m Hwf), (get_filter _ _ _ Hwf).
    destruct (get k m) as [r0|] eqn:Hget; [|discriminate].
    destruct (Sweep.survives now (k, r0)); [|discriminate].
    intros [= <-]. exact (Hst k r0 Hget).
Qed.

(** X19: in every map the service can reach from the empty map, whatever
    the requests, timers and clock readings, a record that is verified
    carries its verification time. *)
Theorem reachable_maps_stamped (ops : list op) :
  forall k r, get k (run ops empty) = Some r ->
              r.(verified) = true -> r.(verifiedAt) <> None.
Proof.
  assert (H : forall m, wf m -> stamped m -> stamped (run ops m)).
  { unfold run. induction ops as [|o ops IH]; intros m Hwf Hst; simpl;
      [auto|].
    apply IH; [now apply step_wf|now apply step_stamped]. }
  apply H; [constructor|]. intros k r. discriminate.
Qed.

Lemma reachable_maps_stamped_witness :
  Some 2000 <> None.
Proof.
  apply (reachable_maps_stamped
           [SendOtp Sample.tickingEnv Sample.connected Sample.request;
            VerifyOtp (Sample.at_ 2000) (Sample.byId "otp_1000_abc" "123456")]
           "otp_1000_abc"
           (mkOtpRecord "9876543210" "123456" 301000 true 1001 (Some 2000)));
    reflexivity.
Defined.

End RunFacts.

(** ** The connection *)

Section ConnectionFacts.

Import Connection.
Local Open Scope list_scope.

(** X20: a connect request never replaces a client that exists: with a
    client present, or with the connection up, the module variables are
    left as they are; only without a client and without a connection is
    the fresh client installed, and then nothing else changes.  The
    request is answered at once exactly when the connection is up. *)
Theorem connect_initializes_once (fresh : client) (st : state) :
  (st.(whatsappClient) <> None \/ st.(whatsappConnected) = true ->
   fst (connect fresh st) = st)
  /\ (st.(whatsappClient) = None -> st.(whatsappConnected) = false ->
      fst (connect fresh st) = initializeWhatsApp fresh st)
  /\ (st.(whatsappConnected) = true ->
      snd (connect fresh st) = mkRequest false false [AlreadyConnected])
  /\ (st.(whatsappConnected) = false ->
      snd (connect fresh st) = mkRequest true true [])
  /\ (forall fresh',
        fst (connect fresh' (fst (connect fresh st)))
        = fst (connect fresh st)).
Proof.
  unfold connect. destruct st as [[cl|] [|] qr]; simpl;
    repeat split; try reflexivity; try discriminate; try tauto;
    intros [H|H]; try discriminate; try reflexivity; now contradiction H.
Qed.

Lemma connect_initializes_once_witness :
  fst (connect (mkClient None None)
         (mkState (Some (mkClient (Some "919876543210"%string) None)) false
            None))
  = mkState (Some (mkClient (Some "919876543210"%string) None)) false None.
Proof.
  apply (proj1 (connect_initializes_once (mkClient None None)
                  (mkState (Some (mkClient (Some "919876543210"%string) None))
                     false None))).
  left. discriminate.
Defined.









Lemma handleAll_without_client (evs : list event) :
  forall st, st.(whatsappClient) = None ->
             (handleAll evs st).(whatsappClient) = None.
Proof.
  unfold handleAll.
  induction evs as [|ev evs IH]; intros st H; simpl; [exact H|].
  apply IH. destruct ev; simpl; auto.
Qed.

(** X22: after an authentication failure or a disconnection, no client
    event brings the service back, not even a later 'ready': until a
    connect request installs a new client, every [send-otp] with a phone
    number is answered 'WhatsApp not connected' and stores nothing. *)
Theorem sendOtp_after_connection_loss (st : state) (loss : event)
    (evs : list event) (e : Send.env) (b : Send.body) (m : JsMap.t)
    (ph : string) :
  loss = AuthFailure \/ loss = Disconnected ->
  asTruthy b.(Send.phone) = Some ph ->
  handle loss st = initial
  /\ Send.sendOtp e (forSend (handleAll evs (handle loss st))) b m
     = (Send.NotConnected, m).
Proof.
  intros Hloss Hph.
  assert (Hinit : handle loss st = initial)
    by (destruct Hloss as [-> | ->]; reflexivity).
  split; [exact Hinit|].
  unfold Send.sendOtp, forSend. rewrite Hph, Hinit.
  now rewrite (handleAll_without_client evs initial eq_refl).
Qed.

Lemma sendOtp_after_connection_loss_witness :
  Send.sendOtp Sample.tickingEnv
    (forSend (handleAll [Qr "2@abc"; Ready]
                (handle Disconnected
                   (mkState (Some (mkClient None None)) true None))))
    Sample.request Sample.store1
  = (Send.NotConnected, Sample.store1).
Proof.
  apply (sendOtp_after_connection_loss
           (mkState (Some (mkClient None None)) true None) Disconnected
           [Qr "2@abc"; Ready] Sample.tickingEnv Sample.request Sample.store1
           "9876543210").
  - now right.
  - reflexivity.
Defined.

End ConnectionFacts.
